(** * OctoScreen [ui] package: connection reconciler and panel navigator

    A shallow embedding of [src/ui/ui.go].  The [UI] struct is a record, the
    methods that mutate it are computations in a small state-and-panic monad,
    and every call into GTK, systemd, the logger or the OctoPrint client is
    recorded as an [Event] in a chronological trace. *)

From Stdlib Require Import ZArith String Ascii List Bool Lia.
From stdpp Require Import base option list gmap.
Import ListNotations.

Local Open Scope string_scope.

(** ** Data model *)

(** A GTK widget handle ([*gtk.Grid] of a panel). *)
Definition Widget := positive.

(** The address of a panel object: two panels are the same object exactly
    when their addresses are equal. *)
Definition PanelRef := positive.

(** A value of the Go interface type [Panel]: [None] is [nil]. *)
Abbreviation Panel := (option PanelRef).

(** What the navigator can observe of a panel object through the interface:
    the results of [Grid()] and of [Parent()]. *)
Record PanelObj := mkPanelObj {
  pGrid : Widget;
  pParent : Panel
}.

(** [octoprint.Client], as far as this file reads it; [octoprint.NewClient]
    stores its two arguments in these fields. *)
Record Client := mkClient {
  Endpoint : string;
  APIKey : string
}.

(** [octoprint.ConnectionState] is a Go string type. *)
Definition ConnectionState := string.

(** A Go [error] value, observed through [Error()]. *)
Record error := mkError { Error : string }.

(** Log levels of the two loggers used. *)
Inductive Level := LvDebug | LvInfo | LvError.

(** Calls that leave this file, in the order they are made. *)
Inductive Event :=
| EvSdNotify (m : string)
| EvLog (lv : Level) (msg : string)
| EvConnectionRequest
| EvConnectRequest
| EvSetText (text : string)
| EvGridRemove (w : Widget)
| EvGridAttach (w : Widget) (left top width height : Z)
| EvGridShowAll
| EvShow (p : PanelRef)
| EvHide (p : PanelRef)
| EvSetTitle (title : string)
| EvSetDefaultSize (width height : Z)
| EvWindowShowAll
| EvScreenGetDefault
| EvAddProviderForScreen
| EvSetResizable (resizable : bool)
| EvConnect (signal : string)
| EvWindowAdd
| EvOverlayAdd
| EvAddOverlay.

(** The [UI] struct together with the objects it points to.  [Label] is the
    text of [ui.s.Label], [g] the children of the grid [ui.g], [heap] the
    panel objects that exist, [trace] the calls made so far.  Times are
    nanoseconds on the monotonic clock.  The window [w], the overlay [o],
    [Notifications] and the background task [b] have no field here: the
    calls made on them are recorded in the trace. *)
Record UI := mkUI {
  Current : Panel;
  Printer : Client;
  State : ConnectionState;
  UIState : string;
  s : PanelRef;
  Label : string;
  g : list Widget;
  t : Z;
  width : Z;
  height : Z;
  scaleFactor : Z;
  heap : gmap PanelRef PanelObj;
  trace : list Event
}.

Definition set_Current (p : Panel) (ui : UI) : UI :=
  mkUI p (Printer ui) (State ui) (UIState ui) (s ui) (Label ui) (g ui) (t ui)
       (width ui) (height ui) (scaleFactor ui) (heap ui) (trace ui).

Definition set_State (st : ConnectionState) (ui : UI) : UI :=
  mkUI (Current ui) (Printer ui) st (UIState ui) (s ui) (Label ui) (g ui) (t ui)
       (width ui) (height ui) (scaleFactor ui) (heap ui) (trace ui).

Definition set_UIState (m : string) (ui : UI) : UI :=
  mkUI (Current ui) (Printer ui) (State ui) m (s ui) (Label ui) (g ui) (t ui)
       (width ui) (height ui) (scaleFactor ui) (heap ui) (trace ui).

Definition set_Label (text : string) (ui : UI) : UI :=
  mkUI (Current ui) (Printer ui) (State ui) (UIState ui) (s ui) text (g ui) (t ui)
       (width ui) (height ui) (scaleFactor ui) (heap ui) (trace ui).

Definition set_g (l : list Widget) (ui : UI) : UI :=
  mkUI (Current ui) (Printer ui) (State ui) (UIState ui) (s ui) (Label ui) l (t ui)
       (width ui) (height ui) (scaleFactor ui) (heap ui) (trace ui).

Definition set_heap (h : gmap PanelRef PanelObj) (ui : UI) : UI :=
  mkUI (Current ui) (Printer ui) (State ui) (UIState ui) (s ui) (Label ui) (g ui) (t ui)
       (width ui) (height ui) (scaleFactor ui) h (trace ui).

Definition set_scaleFactor (n : Z) (ui : UI) : UI :=
  mkUI (Current ui) (Printer ui) (State ui) (UIState ui) (s ui) (Label ui) (g ui) (t ui)
       (width ui) (height ui) n (heap ui) (trace ui).

Definition set_s (r : PanelRef) (text : string) (ui : UI) : UI :=
  mkUI (Current ui) (Printer ui) (State ui) (UIState ui) r text (g ui) (t ui)
       (width ui) (height ui) (scaleFactor ui) (heap ui) (trace ui).

Definition push (e : Event) (ui : UI) : UI :=
  mkUI (Current ui) (Printer ui) (State ui) (UIState ui) (s ui) (Label ui) (g ui) (t ui)
       (width ui) (height ui) (scaleFactor ui) (heap ui) (trace ui ++ [e]).

(** ** The monad: state passing with Go panics *)

Inductive Res (A : Type) :=
| Ok (a : A) (ui : UI)
| Panic (ui : UI).
Arguments Ok {A} a ui.
Arguments Panic {A} ui.

Definition M (A : Type) := UI -> Res A.

Definition ret {A} (a : A) : M A := fun ui => Ok a ui.

Definition bind {A B} (m : M A) (k : A -> M B) : M B :=
  fun ui => match m ui with
            | Ok a ui' => k a ui'
            | Panic ui' => Panic ui'
            end.

Notation "'let*' x ':=' m 'in' k" := (bind m (fun x => k))
  (at level 10, x name, m at level 100, k at level 200).
Notation "m '>>' k" := (bind m (fun _ => k))
  (at level 90, right associativity).

Definition panic {A} : M A := fun ui => Panic ui.

Definition read {A} (f : UI -> A) : M A := fun ui => Ok (f ui) ui.

Definition modify (f : UI -> UI) : M unit := fun ui => Ok tt (f ui).

Definition emit (e : Event) : M unit := modify (push e).

(** [defer d; body]: [d] runs when the function returns, also when [body]
    panicked, and the panic then continues. *)
Definition defer {A} (d : M unit) (body : M A) : M A :=
  fun ui => match body ui with
            | Ok a ui' => match d ui' with
                          | Ok _ ui'' => Ok a ui''
                          | Panic ui'' => Panic ui''
                          end
            | Panic ui' => match d ui' with
                           | Ok _ ui'' => Panic ui''
                           | Panic ui'' => Panic ui''
                           end
            end.

(** The state a computation ends in, whether it returned or panicked. *)
Definition final {A} (r : Res A) : UI :=
  match r with Ok _ ui => ui | Panic ui => ui end.

(** ** GTK container [ui.g] *)

(** [gtk_container_remove]: the child leaves the container. *)
Definition container_remove (w : Widget) (l : list Widget) : list Widget :=
  filter (fun x => x <> w) l.

(** [gtk_grid_attach]: the child joins the container; GTK refuses a widget
    that already has a parent. *)
Definition container_attach (w : Widget) (l : list Widget) : list Widget :=
  if decide (w ∈ l) then l else l ++ [w].

Arguments container_remove : simpl never.
Arguments container_attach : simpl never.

Definition grid_Remove (w : Widget) : M unit :=
  modify (fun ui => set_g (container_remove w (g ui)) ui) >>
  emit (EvGridRemove w).

Definition grid_Attach (w : Widget) (left top width height : Z) : M unit :=
  modify (fun ui => set_g (container_attach w (g ui)) ui) >>
  emit (EvGridAttach w left top width height).

Definition grid_ShowAll : M unit := emit EvGridShowAll.

(** The children of the grid after one more call. *)
Definition grid_step (l : list Widget) (e : Event) : list Widget :=
  match e with
  | EvGridRemove w => container_remove w l
  | EvGridAttach w _ _ _ _ => container_attach w l
  | _ => l
  end.

(** The children of the grid after a sequence of calls. *)
Definition grid_after (l : list Widget) (es : list Event) : list Widget :=
  fold_left grid_step es l.

(** ** The [Panel] interface *)

(** Modelled from the spec: the implementations of the [Panel] methods live
    in other files of the package.  Section 6 gives the capability set
    [Show()], [Hide()], [RootNode() -> LayoutHandle], [Parent() -> Panel|none];
    [Show] and [Hide] are lifecycle calls, recorded in the trace, and the two
    getters read the panel object.  A method call on a [nil] interface value
    panics, and so does (in this model) a call through an address at which no
    object lives. *)
Definition deref (p : Panel) : M (PanelRef * PanelObj) :=
  fun ui => match p with
            | None => Panic ui
            | Some r => match heap ui !! r with
                        | Some o => Ok (r, o) ui
                        | None => Panic ui
                        end
            end.

Definition Show (p : Panel) : M unit :=
  let* ro := deref p in emit (EvShow (fst ro)).

Definition Hide (p : Panel) : M unit :=
  let* ro := deref p in emit (EvHide (fst ro)).

Definition Grid (p : Panel) : M Widget :=
  let* ro := deref p in ret (pGrid (snd ro)).

Definition Parent (p : Panel) : M Panel :=
  let* ro := deref p in ret (pParent (snd ro)).

(** ** Navigator: [Add], [Remove], [GoHistory] *)

(** [func (ui *UI) Remove(p Panel)].  The receiver of the deferred [p.Hide()]
    is evaluated at the [defer] statement. *)
Definition Remove (p : Panel) : M unit :=
  let* _ := deref p in
  defer (Hide p)
        (let* w := Grid p in grid_Remove w).

(** [func (ui *UI) Add(p Panel)] *)
Definition Add (p : Panel) : M unit :=
  let* cur := read Current in
  (if cur is Some _ then Remove cur else ret tt) >>
  modify (set_Current p) >>
  let* cur' := read Current in
  Show cur' >>
  let* w := Grid cur' in
  grid_Attach w 1 0 1 1 >>
  grid_ShowAll.

(** [func (ui *UI) GoHistory()] *)
Definition GoHistory : M unit :=
  let* cur := read Current in
  let* parent := Parent cur in
  Add parent.

(** ** Collaborators outside this file *)

(** What one run of [verifyConnection] receives from outside: the result of
    [daemon.SdNotify], of the connection query, of the connect command (read
    only when the command is sent) and the clock. *)
Record Poll := mkPoll {
  notifyErr : option error;
  query : ConnectionState + error;
  connect : option error;
  now : Z
}.

(** Functions this file calls and does not define: the predicates of
    [octoprint.ConnectionState], Go's [strconv.Quote] (the verb [%q]), and the
    two panel constructors of the package, which receive the [*UI] and
    return a [Panel]. *)
Class Deps := {
  IsOperational : ConnectionState -> bool;
  IsPrinting : ConnectionState -> bool;
  IsError : ConnectionState -> bool;
  IsOffline : ConnectionState -> bool;
  IsConnecting : ConnectionState -> bool;
  Quote : string -> string;
  IdleStatusPanel : M Panel;
  PrintStatusPanel : M Panel
}.

(** ** Package-level variables *)

Definition ImageFolder : string := "images".
Definition CSSFilename : string := "style.css".
Definition WindowName : string := "OctoScreen".
Definition WindowHeight : Z := 480.
Definition WindowWidth : Z := 800.

(** ** Strings and time *)

(** [strings.Contains(s, substr)] *)
Fixpoint Contains (str substr : string) : bool :=
  String.prefix substr str ||
  match str with
  | EmptyString => false
  | String _ rest => Contains rest substr
  end.

(** [%v] of a [bool] *)
Definition fmt_bool (b : bool) : string := if b then "true" else "false".

Definition newline : string := String (ascii_of_nat 10) EmptyString.

(** [time.Duration] is an [int64] count of nanoseconds. *)
Definition maxDuration : Z := 2 ^ 63 - 1.
Definition minDuration : Z := - 2 ^ 63.
Definition Second : Z := 1000000000.

(** [time.Since(t)] at clock reading [now]: the difference, saturated to the
    range of [time.Duration]. *)
Definition Since (now t : Z) : Z :=
  let d := (now - t)%Z in
  if (d >? maxDuration)%Z then maxDuration
  else if (d <? minDuration)%Z then minDuration
  else d.

Definition errMercyPeriod : Z := (Second * 30)%Z.

(** ** Reconciler *)

Section Reconciler.
Context `{D : Deps}.

(** [func (ui *UI) errToUser(err error) string] *)
Definition errToUser (err : error) (ui : UI) : string :=
  let text := Error err in
  if Contains text "connection refused" then
    "Unable to connect to " ++ Quote (Endpoint (Printer ui)) ++
    " (Key: " ++ fmt_bool (negb (String.eqb (APIKey (Printer ui)) "")) ++
    "), " ++ newline ++ "maybe OctoPrint not running?"
  else
    "Unexpected error: " ++ Error err.

(** [func (ui *UI) sdNotify(m string)] *)
Definition sdNotify (m : string) (res : option error) : M unit :=
  emit (EvSdNotify m) >>
  match res with
  | Some err => emit (EvLog LvError ("Error sending notification: " ++ Error err))
  | None => ret tt
  end.

(** [ui.s.Label.SetText(text)] *)
Definition SetText (text : string) : M unit :=
  modify (set_Label text) >> emit (EvSetText text).

(** The body shared by the [IsError] and [IsOffline] cases (lines 135-138). *)
Definition reconnect (io : Poll) : M string :=
  emit EvConnectRequest >>
  match connect io with
  | Some err =>
      SetText ("Error connecting to printer: " ++ Error err) >>
      ret "splash"
  | None => ret "splash"
  end.

(** Lines 122-149 of [verifyConnection]: the value of [newUiState]. *)
Definition classify (io : Poll) : M string :=
  emit EvConnectionRequest >>
  match query io with
  | inl st =>
      modify (set_State st) >>
      if IsOperational st then ret "idle"
      else if IsPrinting st then ret "printing"
      else if IsError st then reconnect io
      else if IsOffline st then reconnect io
      else if IsConnecting st then SetText st >> ret "splash"
      else ret "splash"
  | inr err =>
      (let* t0 := read t in
       if (Since (now io) t0 >? errMercyPeriod)%Z
       then let* text := read (errToUser err) in SetText text
       else ret tt) >>
      emit (EvLog LvDebug ("Unexpected error: " ++ Error err)) >>
      ret "splash"
  end.

(** The value of [newUiState] when line 151 is reached, read off the poll
    alone.  Not a function of the source: [classify_returns] proves that
    [classify] returns it in every state. *)
Definition targetMode (io : Poll) : string :=
  match query io with
  | inl st => if IsOperational st then "idle"
              else if IsPrinting st then "printing"
              else "splash"
  | inr _ => "splash"
  end.

(** Lines 153-166 of [verifyConnection]. *)
Definition install (newUiState : string) : M unit :=
  let* old := read UIState in
  if String.eqb newUiState old then ret tt
  else if String.eqb newUiState "idle" then
    emit (EvLog LvInfo "Printer is ready") >>
    let* p := IdleStatusPanel in Add p
  else if String.eqb newUiState "printing" then
    emit (EvLog LvInfo "Printing a job") >>
    let* p := PrintStatusPanel in Add p
  else if String.eqb newUiState "splash" then
    let* sp := read s in Add (Some sp)
  else ret tt.

(** [func (ui *UI) verifyConnection()] *)
Definition verifyConnection (io : Poll) : M unit :=
  sdNotify "WATCHDOG=1" (notifyErr io) >>
  let* newUiState := classify io in
  defer (modify (set_UIState newUiState))
        (install newUiState).

(** Modelled from the spec: [NewBackgroundTask] is defined in another file.
    Section 4.1 has the poller invoke the supplied action repeatedly for the
    lifetime of the process, with no error channel: one run of
    [verifyConnection] per poll, and a panic ends the run. *)
Fixpoint polls (ios : list Poll) : M unit :=
  match ios with
  | [] => ret tt
  | io :: rest => verifyConnection io >> polls rest
  end.

(** ** Construction *)

(** What [New] receives from outside: the clock, the result of
    [daemon.SdNotify], the text the splash label starts with and the error
    of [gdk.ScreenGetDefault], if any. *)
Record Startup := mkStartup {
  startNow : Z;
  startNotifyErr : option error;
  startLabel : string;
  startScreenErr : option error
}.

(** Modelled from the spec: [NewSplashPanel] is defined in another file.
    The spec calls its result the pre-built splash panel singleton; like every
    panel it has a root layout node, and it is the top of its stack (no
    parent).  The new object gets an unused address. *)
Definition NewSplashPanel : M PanelRef :=
  let* h := read heap in
  let r := fresh (dom h) in
  modify (set_heap (<[r := mkPanelObj r None]> h)) >>
  ret r.

(** [func (ui *UI) loadStyle()].  [MustCSSProviderFromFile] builds the
    provider; like the other [Must...] constructors of the package it either
    returns its object or panics, and [New] is described for the case that
    they all return. *)
Definition loadStyle (st : Startup) : M unit :=
  emit EvScreenGetDefault >>
  match startScreenErr st with
  | Some err => emit (EvLog LvError ("Error getting GDK screen: " ++ Error err))
  | None => emit EvAddProviderForScreen
  end.

(** [func (ui *UI) initialize()].  [ui.o.Add(ui.g)] puts the new, empty grid
    [ui.g] into the overlay. *)
Definition initialize (st : Startup) : M unit :=
  defer (emit EvWindowShowAll)
        (loadStyle st >>
         emit (EvSetTitle WindowName) >>
         (let* w := read width in
          let* h := read height in
          emit (EvSetDefaultSize w h)) >>
         emit (EvSetResizable false) >>
         emit (EvConnect "show") >>
         emit (EvConnect "destroy") >>
         emit EvWindowAdd >>
         modify (set_g []) >>
         emit EvOverlayAdd >>
         emit EvAddOverlay >>
         sdNotify "READY=1" (startNotifyErr st)).

(** [func New(endpoint, key string, width, height int) *UI], when the
    constructors it calls return. *)
Definition New (endpoint key : string) (width height : Z) (st : Startup) : UI :=
  let wh := if (width =? 0)%Z || (height =? 0)%Z
            then (WindowWidth, WindowHeight)
            else (width, height) in
  let width := fst wh in
  let height := snd wh in
  let ui := mkUI None (mkClient endpoint key) "" "" 1%positive "" []
                 (startNow st) width height 0 ∅ [] in
  let ui := set_scaleFactor
              (if (width >? 480)%Z then 2
               else if (width >? 1000)%Z then 3
               else 1)%Z ui in
  final ((let* r := NewSplashPanel in
          modify (set_s r (startLabel st)) >>
          initialize st) ui).

End Reconciler.

(** ** A concrete set of collaborators

    Used to run the model on examples: state predicates that test the prefix
    of the state label, quoting of a plain ASCII string, and constructors
    that allocate a fresh parentless panel on every call. *)

Definition dquote : string := String (ascii_of_nat 34) EmptyString.

Definition allocPanel (parent : Panel) : M Panel :=
  let* h := read heap in
  let r := fresh (dom h) in
  modify (set_heap (<[r := mkPanelObj r parent]> h)) >>
  ret (Some r).

Definition demo : Deps := {|
  IsOperational st := String.prefix "Operational" st;
  IsPrinting st := String.prefix "Printing" st;
  IsError st := String.prefix "Error" st;
  IsOffline st := String.prefix "Offline" st;
  IsConnecting st := String.prefix "Connecting" st;
  Quote e := dquote ++ e ++ dquote;
  IdleStatusPanel := allocPanel None;
  PrintStatusPanel := allocPanel None
|}.

(** An upstream whose states answer yes to every question. *)
Definition permissive : Deps := {|
  IsOperational st := true;
  IsPrinting st := true;
  IsError st := true;
  IsOffline st := true;
  IsConnecting st := true;
  Quote e := dquote ++ e ++ dquote;
  IdleStatusPanel := allocPanel None;
  PrintStatusPanel := allocPanel None
|}.

(** Example inputs. *)
Definition boot : Startup := mkStartup 0 None "" None.
Definition ui0 : UI := New "http://host:80" "secret" 0 0 boot.
Definition pollOk (st : string) (n : Z) := mkPoll None (inl st) None n.
Definition pollErr (e : string) (n : Z) := mkPoll None (inr (mkError e)) None n.

(** A navigator state with a sub-screen open: panel 2 on top of the splash
    panel, then panel 3, whose parent is panel 2. *)
Definition uiMenu : UI :=
  final ((let* a := allocPanel None in
          Add a >>
          let* b := allocPanel a in
          Add b) (final (Add (Some 1%positive) ui0))).

Definition uiIdle : UI :=
  final (verifyConnection (D:=demo) (pollOk "Operational" 0) ui0).

Definition pollRefused : Poll :=
  mkPoll None (inl "Error") (Some (mkError "dial tcp: connection refused")) 0.

Definition pollAt30 : Poll := pollErr "timeout" (30 * Second).

Definition pollAt31 : Poll := pollErr "timeout" (31 * Second).

Definition uiKeyTrue : UI := New "http://host:80" "true" 800 480 boot.

(** ** Observations on traces and states *)

Local Open Scope list_scope.

(** Calls that install or remove a panel. *)
Definition nav_event (e : Event) : bool :=
  match e with
  | EvGridRemove _ | EvGridAttach _ _ _ _ _ | EvShow _ | EvHide _ => true
  | _ => false
  end.

(** The display slot holds the layout node of the current panel and nothing
    else. *)
Definition display_inv (ui : UI) : Prop :=
  match Current ui with
  | None => g ui = []
  | Some q => exists o, heap ui !! q = Some o /\ g ui = [pGrid o]
  end.

(** What the navigator leaves alone. *)
Record frames (ui ui' : UI) : Prop := mkFrames {
  fr_Printer : Printer ui' = Printer ui;
  fr_State : State ui' = State ui;
  fr_UIState : UIState ui' = UIState ui;
  fr_s : s ui' = s ui;
  fr_Label : Label ui' = Label ui;
  fr_t : t ui' = t ui;
  fr_heap : heap ui' = heap ui;
  fr_trace : exists es, trace ui' = trace ui ++ es
}.

(** The liveness signal. *)
Definition watchdog (e : Event) : bool :=
  match e with
  | EvSdNotify m => String.eqb m "WATCHDOG=1"
  | _ => false
  end.

(** A step that leaves the navigator alone: same current panel, same display
    slot, same panel objects, same recorded mode, no navigator call, and [n]
    liveness signals. *)
Record quiet (n : nat) (ui ui' : UI) : Prop := mkQuiet {
  q_Current : Current ui' = Current ui;
  q_g : g ui' = g ui;
  q_heap : heap ui' = heap ui;
  q_UIState : UIState ui' = UIState ui;
  q_s : s ui' = s ui;
  q_t : t ui' = t ui;
  q_Printer : Printer ui' = Printer ui;
  q_trace : exists es, trace ui' = trace ui ++ es /\
                       filter nav_event es = [] /\
                       length (filter watchdog es) = n
}.

(** A panel constructor that leaves [ui.t] alone, whatever else it does and
    whether it returns or panics. *)
Definition keeps_t (c : M Panel) : Prop :=
  forall ui, t (final (c ui)) = t ui.

(** ** Further observations *)

(** A state the reconciler can work in: the display slot holds the node of
    the current panel only, and the splash panel exists. *)
Definition steady (ui : UI) : Prop :=
  display_inv ui /\ is_Some (heap ui !! s ui).

(** The calls [Add] makes to take the current panel off the display. *)
Definition detach_calls (ui : UI) : list Event :=
  match Current ui with
  | Some q => match heap ui !! q with
              | Some o => [EvGridRemove (pGrid o); EvHide q]
              | None => []
              end
  | None => []
  end.

(** The calls [Add] makes to put panel [p] on the display. *)
Definition attach_calls (p : PanelRef) (o : PanelObj) : list Event :=
  [EvShow p; EvGridAttach (pGrid o) 1 0 1 1].

(** The calls [Add] has made to put the current panel on the display. *)
Definition show_calls (ui : UI) : list Event :=
  match Current ui with
  | Some p => match heap ui !! p with
              | Some o => attach_calls p o
              | None => []
              end
  | None => []
  end.

(** An attach to the display slot. *)
Definition attaches (e : Event) : bool :=
  match e with
  | EvGridAttach _ _ _ _ _ => true
  | _ => false
  end.

(** The connect command. *)
Definition connects (e : Event) : bool :=
  match e with
  | EvConnectRequest => true
  | _ => false
  end.

(** What a panel constructor may do to reach [ui'] from [ui] when it
    returns [p]: create panel objects and make calls of its own, but none to
    the navigator, the liveness sink or the printer; [p] exists afterwards and
    the objects that existed are kept. *)
Record built (p : PanelRef) (ui ui' : UI) : Prop := mkBuilt {
  b_Current : Current ui' = Current ui;
  b_Printer : Printer ui' = Printer ui;
  b_State : State ui' = State ui;
  b_UIState : UIState ui' = UIState ui;
  b_s : s ui' = s ui;
  b_Label : Label ui' = Label ui;
  b_g : g ui' = g ui;
  b_t : t ui' = t ui;
  b_live : is_Some (heap ui' !! p);
  b_heap : forall q o, heap ui !! q = Some o -> heap ui' !! q = Some o;
  b_trace : exists es, trace ui' = trace ui ++ es /\
                       filter nav_event es = [] /\
                       filter watchdog es = [] /\
                       filter connects es = []
}.

(** A constructor that always returns a panel, built as above. *)
Definition constructs (c : M Panel) : Prop :=
  forall ui, exists p ui', c ui = Ok (Some p) ui' /\ built p ui ui'.

(** The poll is a failed query. *)
Definition failed (io : Poll) : bool :=
  match query io with
  | inl _ => false
  | inr _ => true
  end.

(** The error of a failed query (the empty error for a successful one). *)
Definition failure (io : Poll) : error :=
  match query io with
  | inl _ => mkError ""
  | inr err => err
  end.

(** The poll comes after the mercy period of a [UI] built at [t0]. *)
Definition late (t0 : Z) (io : Poll) : bool :=
  (Since (now io) t0 >? errMercyPeriod)%Z.

(** The poll with another result of [daemon.SdNotify]. *)
Definition with_notifyErr (res : option error) (io : Poll) : Poll :=
  mkPoll res (query io) (connect io) (now io).

(** A state without its trace. *)
Definition erase (ui : UI) : UI :=
  mkUI (Current ui) (Printer ui) (State ui) (UIState ui) (s ui) (Label ui) (g ui)
       (t ui) (width ui) (height ui) (scaleFactor ui) (heap ui) [].

(** The events a computation added to the trace. *)
Definition added (ui ui' : UI) : list Event :=
  drop (length (trace ui)) (trace ui').

Section FurtherObservations.
Context `{D : Deps}.

(** The query succeeds with a state that reaches the error or offline case. *)
Definition needsConnect (io : Poll) : bool :=
  match query io with
  | inl st => negb (IsOperational st) && negb (IsPrinting st) &&
              (IsError st || IsOffline st)
  | inr _ => false
  end.

(** The target mode of the last poll of a run, [m0] for the empty run. *)
Definition lastMode (m0 : string) (ios : list Poll) : string :=
  fold_left (fun _ io => targetMode io) ios m0.

(** The number of polls of a run whose target mode differs from the mode
    recorded before them, [m0] being recorded before the first. *)
Fixpoint changes (m0 : string) (ios : list Poll) : nat :=
  match ios with
  | [] => 0
  | io :: rest =>
      (if String.eqb (targetMode io) m0 then 0 else 1) +
      changes (targetMode io) rest
  end.

(** The splash label after a poll, [l] being the label before it, for a
    [UI] with the construction time and the client of [ui]. *)
Definition labelAfter (io : Poll) (ui : UI) (l : string) : string :=
  match query io with
  | inl st =>
      if IsOperational st then l
      else if IsPrinting st then l
      else if IsError st || IsOffline st then
        match connect io with
        | Some err => "Error connecting to printer: " ++ Error err
        | None => l
        end
      else if IsConnecting st then st
      else l
  | inr err => if late (t ui) io then errToUser err ui else l
  end.

(** The connection state kept in [ui.State] after a poll. *)
Definition stateAfter (io : Poll) (st0 : ConnectionState) : ConnectionState :=
  match query io with
  | inl st => st
  | inr _ => st0
  end.

(** Lines 122-149 from [ui] to [ui'], observed. *)
Record classified (io : Poll) (ui ui' : UI) : Prop := mkClassified {
  c_Current : Current ui' = Current ui;
  c_g : g ui' = g ui;
  c_heap : heap ui' = heap ui;
  c_UIState : UIState ui' = UIState ui;
  c_s : s ui' = s ui;
  c_t : t ui' = t ui;
  c_Printer : Printer ui' = Printer ui;
  c_State : State ui' = stateAfter io (State ui);
  c_Label : Label ui' = labelAfter io ui (Label ui);
  c_trace : exists es,
      trace ui' = (trace ui ++ es)%list /\
      filter watchdog es = [] /\
      filter connects es =
        (if needsConnect io then [EvConnectRequest] else []) /\
      filter nav_event es = []
}.

(** Lines 151-166 for new mode [m] from [ui] to [ui'], observed. *)
Record installed (m : string) (ui ui' : UI) : Prop := mkInstalled {
  i_UIState : UIState ui' = m;
  i_s : s ui' = s ui;
  i_t : t ui' = t ui;
  i_Printer : Printer ui' = Printer ui;
  i_State : State ui' = State ui;
  i_Label : Label ui' = Label ui;
  i_heap : forall q o, heap ui !! q = Some o -> heap ui' !! q = Some o;
  i_steady : steady ui';
  i_same : m = UIState ui ->
           Current ui' = Current ui /\ g ui' = g ui /\ heap ui' = heap ui;
  i_changed : m <> UIState ui -> is_Some (Current ui');
  i_splash : m = "splash" -> m <> UIState ui -> Current ui' = Some (s ui);
  i_trace : exists es,
      trace ui' = (trace ui ++ es)%list /\
      filter watchdog es = [] /\
      filter connects es = [] /\
      filter nav_event es =
        (if String.eqb m (UIState ui) then []
         else detach_calls ui ++ show_calls ui')%list
}.

(** One run of [verifyConnection] from [ui] to [ui'], observed. *)
Record ticked (io : Poll) (ui ui' : UI) : Prop := mkTicked {
  k_UIState : UIState ui' = targetMode io;
  k_s : s ui' = s ui;
  k_t : t ui' = t ui;
  k_Printer : Printer ui' = Printer ui;
  k_State : State ui' = stateAfter io (State ui);
  k_Label : Label ui' = labelAfter io ui (Label ui);
  k_heap : forall q o, heap ui !! q = Some o -> heap ui' !! q = Some o;
  k_steady : steady ui';
  k_same : targetMode io = UIState ui ->
           Current ui' = Current ui /\ g ui' = g ui /\ heap ui' = heap ui;
  k_changed : targetMode io <> UIState ui -> is_Some (Current ui');
  k_splash : targetMode io = "splash" -> targetMode io <> UIState ui ->
             Current ui' = Some (s ui);
  k_trace : exists es,
      trace ui' = (trace ui ++ es)%list /\
      filter watchdog es = [EvSdNotify "WATCHDOG=1"] /\
      filter connects es =
        (if needsConnect io then [EvConnectRequest] else []) /\
      filter nav_event es =
        (if String.eqb (targetMode io) (UIState ui) then []
         else detach_calls ui ++ show_calls ui')%list
}.

(** A run of polls from [ui] to [ui'], observed. *)
Record ran (ios : list Poll) (ui ui' : UI) : Prop := mkRan {
  r_UIState : UIState ui' = lastMode (UIState ui) ios;
  r_s : s ui' = s ui;
  r_t : t ui' = t ui;
  r_Printer : Printer ui' = Printer ui;
  r_State : State ui' = fold_left (fun st io => stateAfter io st) ios (State ui);
  r_Label : Label ui' = fold_left (fun l io => labelAfter io ui l) ios (Label ui);
  r_heap : forall q o, heap ui !! q = Some o -> heap ui' !! q = Some o;
  r_steady : steady ui';
  r_trace : exists es,
      trace ui' = (trace ui ++ es)%list /\
      length (filter watchdog es) = length ios /\
      length (filter connects es) = length (filter needsConnect ios) /\
      length (filter attaches es) = changes (UIState ui) ios
}.

End FurtherObservations.

(** What holds of the recorded mode and the current panel as long as only
    the reconciler installs panels: once a mode is recorded a panel is
    current, and in mode splash it is the splash panel. *)
Definition coherent (ui : UI) : Prop :=
  (UIState ui <> "" -> is_Some (Current ui)) /\
  (UIState ui = "splash" -> Current ui = Some (s ui)).

(** Two outcomes that differ in the trace only. *)
Definition agree {A} (r r' : Res A) : Prop :=
  match r, r' with
  | Ok a ui, Ok a' ui' => a = a' /\ erase ui = erase ui'
  | Panic ui, Panic ui' => erase ui = erase ui'
  | _, _ => False
  end.

(** A computation that does not read the trace. *)
Definition blind {A} (m : M A) : Prop :=
  forall ui ui', erase ui = erase ui' -> agree (m ui) (m ui').

(** A state of the sample run in which the splash panel is displayed. *)
Definition uiSplash : UI :=
  final (verifyConnection (D:=demo) pollAt30 ui0).

(** A panel without parent is displayed: panel 2 of [uiMenu] after going
    back. *)
Definition uiTop : UI := final (GoHistory uiMenu).

Definition pollErrorState : Poll := mkPoll None (inl "Error") None 0.

(** ** Proof automation *)

Ltac run :=
  repeat (unfold Add, Remove, GoHistory, Show, Hide, Grid, Parent, deref,
            grid_Remove, grid_Attach, grid_ShowAll, defer, bind, ret, read,
            modify, emit, panic, final, set_Current, set_State, set_UIState,
            set_Label, set_g, set_heap, set_s, set_scaleFactor, push in *;
          cbn [Current Printer State UIState s Label g t width height
               scaleFactor heap trace fst snd] in *).

Ltac run_rec :=
  unfold verifyConnection, classify, install, reconnect, SetText, sdNotify in *;
  run.

Ltac quiet_done :=
  split; cbn; try reflexivity;
  eexists; rewrite <- ?app_assoc; cbn;
  split; [reflexivity | split; reflexivity].

Ltac rewrite_known :=
  repeat match goal with
         | H : ?x = _ |- context [?x] => rewrite H
         end.

Ltac classified_done :=
  eexists; split; [reflexivity|];
  split; cbn; unfold needsConnect, labelAfter, stateAfter, late;
  rewrite_known; cbn; try reflexivity;
  eexists; rewrite <- ?app_assoc; cbn;
  split; [reflexivity | repeat split; reflexivity].

(** ** The model on a sample run *)

(** Five polls after start-up: a failed query inside the mercy window, the
    printer operational twice, printing, then in error with a connect
    command that succeeds.  The navigator calls, in order. *)
Example sample_run_navigation :
  filter nav_event
    (trace (final (polls (D:=demo)
                     [pollErr "dial tcp: connection refused" (5 * Second);
                      pollOk "Operational" 0; pollOk "Operational" 0;
                      pollOk "Printing" 0; pollOk "Error" 0] ui0)))
  = [EvShow 1%positive; EvGridAttach 1%positive 1 0 1 1;
     EvGridRemove 1%positive; EvHide 1%positive;
     EvShow 2%positive; EvGridAttach 2%positive 1 0 1 1;
     EvGridRemove 2%positive; EvHide 2%positive;
     EvShow 3%positive; EvGridAttach 3%positive 1 0 1 1;
     EvGridRemove 3%positive; EvHide 3%positive;
     EvShow 1%positive; EvGridAttach 1%positive 1 0 1 1].
Proof. vm_compute. reflexivity. Qed.

Example sample_run_modes :
  map (fun ios => UIState (final (polls (D:=demo) ios ui0)))
      [[]; [pollAt30]; [pollAt30; pollOk "Operational" 0];
       [pollAt30; pollOk "Printing" 0]; [pollOk "Connecting" 0]]
  = ["" ; "splash"; "idle"; "printing"; "splash"]%string.
Proof. vm_compute. reflexivity. Qed.

Example sample_errToUser :
  errToUser (D:=demo) (mkError "timeout") ui0 = "Unexpected error: timeout"%string.
Proof. reflexivity. Qed.

Example sample_scaleFactor :
  map (fun w => scaleFactor (New "e" "k" w 480 boot)) [320; 480; 481; 1001]%Z
  = [1; 1; 2; 2]%Z.
Proof. reflexivity. Qed.

(** ** Properties of the navigator *)

Lemma frames_refl ui : frames ui ui.
Proof. split; try reflexivity. exists []. now rewrite app_nil_r. Qed.

Lemma frames_trans a b c : frames a b -> frames b c -> frames a c.
Proof.
  intros [] []. split; try congruence.
  destruct fr_trace0 as [e1 H1], fr_trace1 as [e2 H2].
  exists (e1 ++ e2). now rewrite H2, H1, <- app_assoc.
Qed.

Lemma Add_frames (p : Panel) (ui : UI) : frames ui (final (Add p ui)).
Proof.
  run. destruct (Current ui) as [q|] eqn:Hc.
  - destruct (heap ui !! q) as [oq|] eqn:Hq; run.
    + rewrite Hq; run. rewrite Hq; run.
      destruct p as [r|]; run.
      * destruct (heap ui !! r) as [orr|] eqn:Hr; run.
        -- rewrite Hr; run. split; run; try reflexivity.
           eexists. rewrite <- !app_assoc. reflexivity.
        -- split; run; try reflexivity.
           eexists. rewrite <- !app_assoc. reflexivity.
      * split; run; try reflexivity.
        eexists. rewrite <- !app_assoc. reflexivity.
    + apply frames_refl.
  - destruct p as [r|]; run.
    + destruct (heap ui !! r) as [orr|] eqn:Hr; run.
      * rewrite Hr; run. split; run; try reflexivity.
        eexists. rewrite <- !app_assoc. reflexivity.
      * split; run; try reflexivity. exists []. now rewrite app_nil_r.
    + split; run; try reflexivity. exists []. now rewrite app_nil_r.
Qed.

(** [Add] of a live panel over a live current panel: the result, in full. *)
Lemma Add_swap (p q : PanelRef) (op oq : PanelObj) (ui : UI) :
  Current ui = Some q ->
  heap ui !! q = Some oq ->
  heap ui !! p = Some op ->
  Add (Some p) ui =
  Ok tt (mkUI (Some p) (Printer ui) (State ui) (UIState ui) (s ui) (Label ui)
              (container_attach (pGrid op) (container_remove (pGrid oq) (g ui)))
              (t ui) (width ui) (height ui) (scaleFactor ui) (heap ui)
              (trace ui ++ [EvGridRemove (pGrid oq); EvHide q; EvShow p;
                            EvGridAttach (pGrid op) 1 0 1 1; EvGridShowAll])).
Proof.
  intros Hc Hq Hp. run. rewrite Hc; run. rewrite Hq; run. rewrite Hq; run.
  rewrite Hq; run. rewrite Hp; run. rewrite Hp; run.
  rewrite <- !app_assoc. reflexivity.
Qed.

(** [Add] of a live panel when nothing is current. *)
Lemma Add_first (p : PanelRef) (op : PanelObj) (ui : UI) :
  Current ui = None ->
  heap ui !! p = Some op ->
  Add (Some p) ui =
  Ok tt (mkUI (Some p) (Printer ui) (State ui) (UIState ui) (s ui) (Label ui)
              (container_attach (pGrid op) (g ui))
              (t ui) (width ui) (height ui) (scaleFactor ui) (heap ui)
              (trace ui ++ [EvShow p; EvGridAttach (pGrid op) 1 0 1 1;
                            EvGridShowAll])).
Proof.
  intros Hc Hp. run. rewrite Hc; run. rewrite Hp; run. rewrite Hp; run.
  rewrite <- !app_assoc. reflexivity.
Qed.

Lemma container_remove_single (w : Widget) : container_remove w [w] = [].
Proof.
  unfold container_remove. cbn. destruct (decide (w <> w)); [congruence|reflexivity].
Qed.

Lemma container_attach_nil (w : Widget) : container_attach w [] = [w].
Proof.
  unfold container_attach. destruct (decide (w ∈ [])) as [H|_]; [|reflexivity].
  inversion H.
Qed.

(** The display invariant holds once [New] returns. *)
Lemma New_display_inv endpoint key w h st :
  display_inv (New endpoint key w h st).
Proof. destruct st as [n [e|] l [se|]]; reflexivity. Qed.

(** C6: a call [Add(p)] while a panel [q] is current makes exactly the calls
    detach [q.Grid()], [q.Hide()], [p.Show()], attach [p.Grid()], [ShowAll],
    in this order: one detach, then one attach.  When the display slot held
    the node of [q] only, it holds at most one node after every prefix of
    these calls, and the node of [p] only at the end. *)
Theorem Add_detach_then_attach (p q : PanelRef) (op oq : PanelObj) (ui : UI) :
  Current ui = Some q ->
  heap ui !! q = Some oq ->
  heap ui !! p = Some op ->
  display_inv ui ->
  exists ui' es,
    Add (Some p) ui = Ok tt ui' /\
    trace ui' = trace ui ++ es /\
    es = [EvGridRemove (pGrid oq); EvHide q; EvShow p;
          EvGridAttach (pGrid op) 1 0 1 1; EvGridShowAll] /\
    (forall k, length (grid_after (g ui) (take k es)) <= 1) /\
    grid_after (g ui) (take 1 es) = [] /\
    grid_after (g ui) es = g ui' /\
    g ui' = [pGrid op] /\
    Current ui' = Some p /\
    display_inv ui'.
Proof.
  intros Hc Hq Hp Hinv.
  unfold display_inv in Hinv. rewrite Hc in Hinv.
  destruct Hinv as (o & Ho & Hg). rewrite Hq in Ho. injection Ho as <-.
  eexists. eexists. split; [apply (Add_swap p q op oq ui Hc Hq Hp)|].
  cbn [trace g Current].
  rewrite Hg, container_remove_single, container_attach_nil.
  repeat split.
  - intros k.
    do 6 (destruct k as [|k];
          [cbn; rewrite ?container_remove_single, ?container_attach_nil;
           cbn; lia|]).
    cbn. rewrite container_remove_single, container_attach_nil. cbn. lia.
  - cbn. apply container_remove_single.
  - cbn. now rewrite container_remove_single, container_attach_nil.
  - unfold display_inv. cbn. exists op. split; [exact Hp|reflexivity].
Qed.

Lemma Add_detach_then_attach_witness :
  exists ui' es,
    Add (Some 2%positive) uiMenu = Ok tt ui' /\
    trace ui' = trace uiMenu ++ es /\
    es = [EvGridRemove 3%positive; EvHide 3%positive; EvShow 2%positive;
          EvGridAttach 2%positive 1 0 1 1; EvGridShowAll] /\
    (forall k, length (grid_after (g uiMenu) (take k es)) <= 1) /\
    grid_after (g uiMenu) (take 1 es) = [] /\
    grid_after (g uiMenu) es = g ui' /\
    g ui' = [2%positive] /\
    Current ui' = Some 2%positive /\
    display_inv ui'.
Proof.
  apply (Add_detach_then_attach 2%positive 3%positive
           (mkPanelObj 2%positive None)
           (mkPanelObj 3%positive (Some 2%positive)) uiMenu).
  - reflexivity.
  - vm_compute. reflexivity.
  - vm_compute. reflexivity.
  - exists (mkPanelObj 3%positive (Some 2%positive)).
    split; vm_compute; reflexivity.
Defined.

(** C7: when the current panel [q] has the parent [par], [GoHistory] makes
    [par] itself current: the address stored in [q], pointing at the object
    that was already there; no panel object is created or changed. *)
Theorem GoHistory_installs_parent
    (q par : PanelRef) (oq opar : PanelObj) (ui : UI) :
  Current ui = Some q ->
  heap ui !! q = Some oq ->
  pParent oq = Some par ->
  heap ui !! par = Some opar ->
  exists ui',
    GoHistory ui = Ok tt ui' /\
    Current ui' = Some par /\
    heap ui' = heap ui /\
    heap ui' !! par = Some opar /\
    trace ui' = trace ui ++ [EvGridRemove (pGrid oq); EvHide q; EvShow par;
                             EvGridAttach (pGrid opar) 1 0 1 1; EvGridShowAll].
Proof.
  intros Hc Hq Hpar Ho.
  assert (Hgo : GoHistory ui = Add (Some par) ui).
  { unfold GoHistory, Parent, deref, bind, read, ret.
    rewrite Hc, Hq. cbn. now rewrite Hpar. }
  rewrite Hgo, (Add_swap par q opar oq ui Hc Hq Ho).
  eexists. split; [reflexivity|]. cbn. auto.
Qed.

Lemma GoHistory_installs_parent_witness :
  exists ui',
    GoHistory uiMenu = Ok tt ui' /\
    Current ui' = Some 2%positive /\
    heap ui' = heap uiMenu /\
    heap ui' !! 2%positive = Some (mkPanelObj 2%positive None) /\
    trace ui' = trace uiMenu ++
                [EvGridRemove 3%positive; EvHide 3%positive; EvShow 2%positive;
                 EvGridAttach 2%positive 1 0 1 1; EvGridShowAll].
Proof.
  apply (GoHistory_installs_parent 3%positive 2%positive
           (mkPanelObj 3%positive (Some 2%positive))
           (mkPanelObj 2%positive None) uiMenu).
  - reflexivity.
  - vm_compute. reflexivity.
  - reflexivity.
  - vm_compute. reflexivity.
Defined.

(** ** Properties of the reconciler *)

Lemma quiet_trans n m a b c : quiet n a b -> quiet m b c -> quiet (n + m) a c.
Proof.
  intros [] []. split; try congruence.
  destruct q_trace0 as (e1 & H1 & N1 & W1), q_trace1 as (e2 & H2 & N2 & W2).
  exists (e1 ++ e2). repeat split.
  - now rewrite H2, H1, <- app_assoc.
  - now rewrite filter_app, N1, N2.
  - now rewrite filter_app, length_app, W1, W2.
Qed.

Section ReconcilerClaims.
Context `{D : Deps}.

Lemma classify_returns (io : Poll) (ui : UI) :
  exists ui1, classify io ui = Ok (targetMode io) ui1 /\ quiet 0 ui ui1.
Proof.
  unfold targetMode. run_rec. destruct (query io) as [st|err]; run.
  - destruct (IsOperational st); run; [eexists; split; [reflexivity|quiet_done]|].
    destruct (IsPrinting st); run; [eexists; split; [reflexivity|quiet_done]|].
    destruct (IsError st); run.
    { destruct (connect io); run; eexists; (split; [reflexivity|quiet_done]). }
    destruct (IsOffline st); run.
    { destruct (connect io); run; eexists; (split; [reflexivity|quiet_done]). }
    destruct (IsConnecting st); run; eexists; (split; [reflexivity|quiet_done]).
  - destruct (Since (now io) (t ui) >? errMercyPeriod)%Z; run;
      eexists; (split; [reflexivity|quiet_done]).
Qed.

Lemma sdNotify_watchdog (res : option error) (ui : UI) :
  exists ui1, sdNotify "WATCHDOG=1" res ui = Ok tt ui1 /\ quiet 1 ui ui1.
Proof.
  run_rec. destruct res; run; eexists; (split; [reflexivity|quiet_done]).
Qed.

(** One poll whose target mode is the recorded one. *)
Lemma verifyConnection_same_mode (io : Poll) (ui : UI) :
  targetMode io = UIState ui ->
  exists ui', verifyConnection io ui = Ok tt ui' /\ quiet 1 ui ui'.
Proof.
  intros Hm.
  destruct (sdNotify_watchdog (notifyErr io) ui) as (u1 & E1 & Q1).
  destruct (classify_returns io u1) as (u2 & E2 & Q2).
  unfold verifyConnection, bind. rewrite E1, E2.
  unfold defer, install, bind, read.
  assert (Hu : UIState u2 = targetMode io).
  { rewrite (q_UIState _ _ _ Q2), (q_UIState _ _ _ Q1). now symmetry. }
  rewrite Hu, String.eqb_refl. unfold ret, modify.
  eexists. split; [reflexivity|].
  replace (set_UIState (targetMode io) u2) with u2.
  - exact (quiet_trans 1 0 ui u1 u2 Q1 Q2).
  - rewrite <- Hu. now destruct u2.
Qed.

Lemma polls_same_mode (ios : list Poll) (ui : UI) :
  Forall (fun io => targetMode io = UIState ui) ios ->
  exists ui', polls ios ui = Ok tt ui' /\ quiet (length ios) ui ui'.
Proof.
  revert ui. induction ios as [|io rest IH]; intros ui Hall.
  - exists ui. split; [reflexivity|]. split; try reflexivity.
    exists []. now rewrite app_nil_r.
  - inversion Hall as [|? ? Hio Hrest]; subst.
    destruct (verifyConnection_same_mode io ui Hio) as (u1 & E1 & Q1).
    destruct (IH u1) as (u2 & E2 & Q2).
    { rewrite (q_UIState _ _ _ Q1). exact Hrest. }
    exists u2. split.
    + cbn [polls]. unfold bind. now rewrite E1.
    + exact (quiet_trans 1 (length rest) ui u1 u2 Q1 Q2).
Qed.

Lemma sdNotify_frames (m : string) (res : option error) (ui : UI) :
  exists u1, sdNotify m res ui = Ok tt u1 /\ frames ui u1 /\
             Current u1 = Current ui /\ g u1 = g ui.
Proof.
  run_rec. destruct res; run; eexists; (split; [reflexivity|]);
    (split; [split; cbn; try reflexivity; eexists; rewrite <- ?app_assoc;
             reflexivity | split; reflexivity]).
Qed.

Lemma errToUser_Printer (err : error) (ui ui' : UI) :
  Printer ui' = Printer ui -> errToUser err ui' = errToUser err ui.
Proof. intros H. unfold errToUser. now rewrite H. Qed.

(** Whatever [install] does, the deferred assignment records [newUiState]. *)
Lemma verifyConnection_records_mode (io : Poll) (ui : UI) :
  UIState (final (verifyConnection io ui)) = targetMode io.
Proof.
  destruct (sdNotify_watchdog (notifyErr io) ui) as (u1 & E1 & _).
  destruct (classify_returns io u1) as (u2 & E2 & _).
  unfold verifyConnection, bind. rewrite E1, E2.
  unfold defer, modify. destruct (install (targetMode io) u2); reflexivity.
Qed.

(** The installer on target mode splash: nothing, or [Add(ui.s)]. *)
Lemma install_splash (ui : UI) :
  exists u3, frames ui u3 /\
             final (defer (modify (set_UIState "splash")) (install "splash") ui)
             = set_UIState "splash" u3.
Proof.
  unfold defer, install, bind, read, modify.
  destruct (String.eqb "splash" (UIState ui)).
  - exists ui. split; [apply frames_refl|reflexivity].
  - cbn [String.eqb Ascii.eqb Bool.eqb]. cbv beta iota.
    exists (final (Add (Some (s ui)) ui)). split; [apply Add_frames|].
    destruct (Add (Some (s ui)) ui); reflexivity.
Qed.

(** C1: polls whose target mode equals the recorded mode install and remove
    nothing.  Over any run of such polls (a single poll is the one-element
    run) the navigator is not called at all, the current panel, the display
    slot, the panel objects and the recorded mode stay as they were, and
    every poll still sends its liveness signal. *)
Theorem same_mode_polls_no_swap (ios : list Poll) (ui : UI) :
  Forall (fun io => targetMode io = UIState ui) ios ->
  exists ui' es,
    polls ios ui = Ok tt ui' /\
    trace ui' = trace ui ++ es /\
    filter nav_event es = [] /\
    length (filter watchdog es) = length ios /\
    Current ui' = Current ui /\
    g ui' = g ui /\
    heap ui' = heap ui /\
    UIState ui' = UIState ui.
Proof.
  intros Hall.
  destruct (polls_same_mode ios ui Hall) as (ui' & E & Q).
  destruct Q as [Hc Hg Hh Hu _ _ _ (es & Ht & Hn & Hw)].
  exists ui', es. auto 10.
Qed.

(** C2: after a successful query the target mode is decided by the first
    question answered yes, asked in the order operational, printing, error,
    offline, connecting: idle; printing; the connect command (error or
    offline); the state label on the splash screen (connecting); otherwise
    splash with nothing done.  A state that is both operational and printing
    gives idle, and the mode found is the mode recorded. *)
Theorem classification_precedence (io : Poll) (st : ConnectionState) (ui : UI) :
  query io = inl st ->
  let base := set_State st (push EvConnectionRequest ui) in
  (IsOperational st = true -> classify io ui = Ok "idle" base) /\
  (IsOperational st = false -> IsPrinting st = true ->
   classify io ui = Ok "printing" base) /\
  (IsOperational st = false -> IsPrinting st = false ->
   IsError st || IsOffline st = true ->
   classify io ui = reconnect io base) /\
  (IsOperational st = false -> IsPrinting st = false ->
   IsError st = false -> IsOffline st = false -> IsConnecting st = true ->
   classify io ui = Ok "splash" (push (EvSetText st) (set_Label st base))) /\
  (IsOperational st = false -> IsPrinting st = false ->
   IsError st = false -> IsOffline st = false -> IsConnecting st = false ->
   classify io ui = Ok "splash" base) /\
  (IsOperational st = true -> IsPrinting st = true ->
   UIState (final (verifyConnection io ui)) = "idle") /\
  UIState (final (verifyConnection io ui)) =
    (if IsOperational st then "idle"
     else if IsPrinting st then "printing" else "splash").
Proof.
  intros Hq base.
  assert (Hc : classify io ui =
               (if IsOperational st then ret "idle"
                else if IsPrinting st then ret "printing"
                else if IsError st then reconnect io
                else if IsOffline st then reconnect io
                else if IsConnecting st then SetText st >> ret "splash"
                else ret "splash") base).
  { unfold classify. rewrite Hq. reflexivity. }
  assert (Hm : UIState (final (verifyConnection io ui)) =
               (if IsOperational st then "idle"
                else if IsPrinting st then "printing" else "splash")).
  { rewrite verifyConnection_records_mode. unfold targetMode. now rewrite Hq. }
  repeat split.
  - intros Ho. now rewrite Hc, Ho.
  - intros Ho Hp. now rewrite Hc, Ho, Hp.
  - intros Ho Hp He. rewrite Hc, Ho, Hp.
    destruct (IsError st); [reflexivity|]. cbn in He. now rewrite He.
  - intros Ho Hp He Hf Hn. now rewrite Hc, Ho, Hp, He, Hf, Hn.
  - intros Ho Hp He Hf Hn. now rewrite Hc, Ho, Hp, He, Hf, Hn.
  - intros Ho Hp. now rewrite Hm, Ho.
  - exact Hm.
Qed.

(** One failed query: the label, the mode and [ui.t]. *)
Lemma mercy_window_poll (io : Poll) (err : error) (ui : UI) :
  query io = inr err ->
  let d := Since (now io) (t ui) in
  let ui' := final (verifyConnection io ui) in
  ((d <= 30 * Second)%Z -> Label ui' = Label ui) /\
  ((d > 30 * Second)%Z -> Label ui' = errToUser err ui) /\
  UIState ui' = "splash" /\
  t ui' = t ui /\
  (forall p, t (final (Add p ui)) = t ui) /\
  t (final (GoHistory ui)) = t ui.
Proof.
  intros Hq d ui'.
  assert (Hm : targetMode io = "splash") by (unfold targetMode; now rewrite Hq).
  destruct (sdNotify_frames "WATCHDOG=1" (notifyErr io) ui) as (u1 & E1 & F1 & _).
  assert (Hc : exists u2, classify io u1 = Ok "splash" u2 /\ t u2 = t ui /\
            Label u2 = if (d >? errMercyPeriod)%Z then errToUser err ui
                       else Label ui).
  { unfold classify. rewrite Hq. run_rec. rewrite (fr_t _ _ F1). fold d.
    destruct (d >? errMercyPeriod)%Z; run.
    - eexists. split; [reflexivity|]. split; [reflexivity|].
      cbn. apply errToUser_Printer. cbn. apply (fr_Printer _ _ F1).
    - eexists. split; [reflexivity|]. split; [reflexivity|].
      cbn. apply (fr_Label _ _ F1). }
  destruct Hc as (u2 & E2 & Ht2 & Hl2).
  destruct (install_splash u2) as (u3 & F3 & E3).
  assert (Hfin : ui' = set_UIState "splash" u3).
  { unfold ui', verifyConnection, bind. rewrite E1, E2. exact E3. }
  assert (Hl : Label ui' = if (d >? errMercyPeriod)%Z then errToUser err ui
                           else Label ui).
  { rewrite Hfin. cbn. now rewrite (fr_Label _ _ F3). }
  unfold errMercyPeriod in Hl.
  repeat split.
  - intros Hd. rewrite Hl.
    destruct (Z.gtb_spec d (Second * 30)); [lia|reflexivity].
  - intros Hd. rewrite Hl.
    destruct (Z.gtb_spec d (Second * 30)); [reflexivity|lia].
  - rewrite Hfin. reflexivity.
  - rewrite Hfin. cbn. now rewrite (fr_t _ _ F3).
  - intros p. apply (fr_t _ _ (Add_frames p ui)).
  - unfold GoHistory, Parent, deref, bind, read, ret.
    destruct (Current ui) as [q|]; [|reflexivity].
    destruct (heap ui !! q); [|reflexivity].
    apply (fr_t _ _ (Add_frames _ ui)).
Qed.

(** Lines 151-166 leave [ui.t] alone when the constructors do. *)
Lemma install_keeps_t (m : string) (ui : UI) :
  keeps_t IdleStatusPanel ->
  keeps_t PrintStatusPanel ->
  t (final (defer (modify (set_UIState m)) (install m) ui)) = t ui.
Proof.
  intros HI HP.
  assert (Hctor : forall (c : M Panel) msg, keeps_t c ->
            t (final (defer (modify (set_UIState m))
                        (emit (EvLog LvInfo msg) >> let* p := c in Add p) ui))
            = t ui).
  { intros c msg Hc. unfold defer, bind, emit, modify.
    specialize (Hc (push (EvLog LvInfo msg) ui)).
    destruct (c (push (EvLog LvInfo msg) ui)) as [p u3|u3]; cbn in Hc.
    - pose proof (fr_t _ _ (Add_frames p u3)) as Ha.
      destruct (Add p u3); cbn in *; congruence.
    - exact Hc. }
  unfold defer at 1. unfold install, bind at 1, read.
  destruct (String.eqb m (UIState ui)); [reflexivity|].
  destruct (String.eqb m "idle").
  { exact (Hctor IdleStatusPanel "Printer is ready" HI). }
  destruct (String.eqb m "printing").
  { exact (Hctor PrintStatusPanel "Printing a job" HP). }
  destruct (String.eqb m "splash"); [|reflexivity].
  unfold bind, modify.
  pose proof (fr_t _ _ (Add_frames (Some (s ui)) ui)) as Ha.
  destruct (Add (Some (s ui)) ui); cbn in *; exact Ha.
Qed.

(** A poll, successful or not, leaves [ui.t] alone when the constructors
    do. *)
Lemma verifyConnection_keeps_t (io : Poll) (ui : UI) :
  keeps_t IdleStatusPanel ->
  keeps_t PrintStatusPanel ->
  t (final (verifyConnection io ui)) = t ui.
Proof.
  intros HI HP.
  destruct (sdNotify_watchdog (notifyErr io) ui) as (u1 & E1 & Q1).
  destruct (classify_returns io u1) as (u2 & E2 & Q2).
  unfold verifyConnection, bind. rewrite E1, E2.
  rewrite (install_keeps_t (targetMode io) u2 HI HP).
  now rewrite (q_t _ _ _ Q2), (q_t _ _ _ Q1).
Qed.

(** A poll that calls no constructor leaves [ui.t] alone. *)
Lemma verifyConnection_keeps_t_plain (io : Poll) (ui : UI) :
  targetMode io = "splash" \/ targetMode io = UIState ui ->
  t (final (verifyConnection io ui)) = t ui.
Proof.
  intros [Hm|Hm].
  - destruct (sdNotify_watchdog (notifyErr io) ui) as (u1 & E1 & Q1).
    destruct (classify_returns io u1) as (u2 & E2 & Q2).
    destruct (install_splash u2) as (u3 & F3 & E3).
    unfold verifyConnection, bind. rewrite E1, E2, Hm, E3. cbn.
    now rewrite (fr_t _ _ F3), (q_t _ _ _ Q2), (q_t _ _ _ Q1).
  - destruct (verifyConnection_same_mode io ui Hm) as (ui' & E & Q).
    rewrite E. apply (q_t _ _ _ Q).
Qed.

(** A run of polls leaves [ui.t] alone when the constructors do. *)
Lemma polls_keeps_t (ios : list Poll) (ui : UI) :
  keeps_t IdleStatusPanel ->
  keeps_t PrintStatusPanel ->
  t (final (polls ios ui)) = t ui.
Proof.
  intros HI HP. revert ui. induction ios as [|io rest IH]; intros ui.
  - reflexivity.
  - pose proof (verifyConnection_keeps_t io ui HI HP) as Ht.
    cbn [polls]. unfold bind.
    destruct (verifyConnection io ui) as [[] u1|u1]; cbn in Ht.
    + now rewrite IH.
    + exact Ht.
Qed.

(** C3, amended: a failed query [d] after construction leaves the splash
    label alone when [d] is at most 30 seconds and overwrites it with the
    formatted error when [d] is more than 30 seconds; the target mode is
    splash in both cases.  [ui.t] is the clock reading taken by [New] and
    nothing in this file writes it again: not [Add], not [GoHistory], not
    the classification of any poll, successful or failed, and not a poll
    that installs no panel or the splash panel.  When the panel
    constructors leave it alone too, no run of polls changes it, so after
    any earlier polls, successful ones included, the window of a failed
    query is still measured from construction. *)
Theorem mercy_window (io : Poll) (err : error) (ui : UI) :
  query io = inr err ->
  let d := Since (now io) (t ui) in
  let ui' := final (verifyConnection io ui) in
  ((d <= 30 * Second)%Z -> Label ui' = Label ui) /\
  ((d > 30 * Second)%Z -> Label ui' = errToUser err ui) /\
  UIState ui' = "splash" /\
  t ui' = t ui /\
  (forall p, t (final (Add p ui)) = t ui) /\
  t (final (GoHistory ui)) = t ui /\
  (forall io' m u2, classify io' ui = Ok m u2 -> t u2 = t ui) /\
  (forall io',
     targetMode io' = "splash" \/ targetMode io' = UIState ui ->
     t (final (verifyConnection io' ui)) = t ui) /\
  (keeps_t IdleStatusPanel -> keeps_t PrintStatusPanel ->
   (forall ios, t (final (polls ios ui)) = t ui) /\
   (forall pre u1,
      polls pre ui = Ok tt u1 ->
      ((d <= 30 * Second)%Z ->
       Label (final (verifyConnection io u1)) = Label u1) /\
      ((d > 30 * Second)%Z ->
       Label (final (verifyConnection io u1)) = errToUser err u1))) /\
  (forall endpoint key w h st, t (New endpoint key w h st) = startNow st).
Proof.
  intros Hq d ui'.
  destruct (mercy_window_poll io err ui Hq) as (H1 & H2 & H3 & H4 & H5 & H6).
  refine (conj H1 (conj H2 (conj H3 (conj H4 (conj H5 (conj H6
            (conj _ (conj _ (conj _ _))))))))).
  - intros io' m u2 E.
    destruct (classify_returns io' ui) as (v & Ev & Q).
    rewrite Ev in E. injection E as _ <-. apply (q_t _ _ _ Q).
  - intros io'. apply verifyConnection_keeps_t_plain.
  - intros HI HP. split.
    + intros ios. now apply polls_keeps_t.
    + intros pre u1 E.
      pose proof (polls_keeps_t pre ui HI HP) as Ht. rewrite E in Ht.
      cbn in Ht.
      destruct (mercy_window_poll io err u1 Hq) as (G1 & G2 & _).
      rewrite Ht in G1, G2. split; assumption.
  - intros endpoint key w h st.
    destruct st as [n [e|] l [se|]]; reflexivity.
Qed.

(** C4: when the query succeeds and classification reaches the error or
    offline case, the connect command is sent.  If it fails, the target mode
    is splash and the splash label is the diagnostic string, whatever the
    clock reads: the clock is not consulted on this path. *)
Theorem connect_failure_shown_at_once
    (io : Poll) (st : ConnectionState) (ui : UI) :
  query io = inl st ->
  IsOperational st = false ->
  IsPrinting st = false ->
  IsError st || IsOffline st = true ->
  let ui' := final (verifyConnection io ui) in
  (exists pre post, trace ui' = trace ui ++ pre ++ EvConnectRequest :: post) /\
  (forall err, connect io = Some err ->
     UIState ui' = "splash" /\
     Label ui' = ("Error connecting to printer: " ++ Error err)%string) /\
  (forall n,
     final (verifyConnection
              (mkPoll (notifyErr io) (query io) (connect io) n) ui) = ui').
Proof.
  intros Hq Ho Hp He ui'.
  assert (Hm : targetMode io = "splash").
  { unfold targetMode. now rewrite Hq, Ho, Hp. }
  destruct (sdNotify_frames "WATCHDOG=1" (notifyErr io) ui)
    as (u1 & E1 & F1 & _).
  assert (Hc : classify io u1 =
               reconnect io (set_State st (push EvConnectionRequest u1))).
  { unfold classify. rewrite Hq. run. rewrite Ho, Hp.
    destruct (IsError st); [reflexivity|]. cbn in He. now rewrite He. }
  assert (Hr : exists u2,
            classify io u1 = Ok "splash" u2 /\
            (exists post, trace u2 = trace u1 ++ EvConnectionRequest ::
                                     EvConnectRequest :: post) /\
            (forall err, connect io = Some err ->
               Label u2 = ("Error connecting to printer: " ++ Error err)%string)).
  { rewrite Hc. run_rec. destruct (connect io) as [e|]; run.
    - eexists. split; [reflexivity|]. split.
      + eexists. cbn. rewrite <- !app_assoc. reflexivity.
      + intros err [= <-]. reflexivity.
    - eexists. split; [reflexivity|]. split.
      + exists []. cbn. rewrite <- !app_assoc. reflexivity.
      + intros err [=]. }
  destruct Hr as (u2 & E2 & (post & Ht2) & Hl2).
  destruct (install_splash u2) as (u3 & F3 & E3).
  assert (Hfin : ui' = set_UIState "splash" u3).
  { unfold ui', verifyConnection, bind. rewrite E1, E2. exact E3. }
  repeat split.
  - destruct (fr_trace _ _ F1) as (e1 & T1), (fr_trace _ _ F3) as (e3 & T3).
    exists (e1 ++ [EvConnectionRequest]), (post ++ e3).
    rewrite Hfin. cbn. rewrite T3, Ht2, T1.
    rewrite <- !app_assoc. reflexivity.
  - rewrite Hfin. reflexivity.
  - rewrite Hfin. cbn. rewrite (fr_Label _ _ F3). now apply Hl2.
  - intros n. unfold ui', verifyConnection, classify, reconnect.
    cbn [query connect notifyErr]. rewrite Hq. reflexivity.
Qed.

(** C5, amended: [New] leaves the recorded mode empty, which is none of the
    three modes, so the first poll always differs from it.  A first poll
    whose target mode is splash installs the splash panel built by [New]:
    one [Show] and one attach, no detach; the recorded mode is splash from
    then on. *)
Theorem first_splash_poll_installs_splash
    (endpoint key : string) (w h : Z) (st : Startup) (io : Poll) :
  targetMode io = "splash" ->
  let ui := New endpoint key w h st in
  UIState ui = "" /\
  Current ui = None /\
  (forall io', targetMode io' <> UIState ui) /\
  exists ui' es,
    verifyConnection io ui = Ok tt ui' /\
    trace ui' = trace ui ++ es /\
    filter nav_event es = [EvShow (s ui); EvGridAttach (s ui) 1 0 1 1] /\
    Current ui' = Some (s ui) /\
    g ui' = [s ui] /\
    UIState ui' = "splash".
Proof.
  intros Hm ui.
  assert (Hnew : UIState ui = "" /\ Current ui = None /\ g ui = [] /\
                 heap ui !! s ui = Some (mkPanelObj (s ui) None)).
  { unfold ui. destruct st as [n [e|] l [se|]]; repeat split; reflexivity. }
  destruct Hnew as (Hu & Hcur & Hg & Hs).
  split; [exact Hu|]. split; [exact Hcur|].
  split.
  { intros io'. rewrite Hu. unfold targetMode.
    destruct (query io') as [st'|]; [|discriminate].
    destruct (IsOperational st'); [discriminate|].
    destruct (IsPrinting st'); discriminate. }
  destruct (sdNotify_watchdog (notifyErr io) ui) as (u1 & E1 & Q1).
  destruct (classify_returns io u1) as (u2 & E2 & Q2).
  pose proof (quiet_trans 1 0 ui u1 u2 Q1 Q2) as Q.
  destruct Q as [Qc Qg Qh Qu Qs _ _ (es & Ht & Hn & _)].
  assert (Ha : Add (Some (s u2)) u2 =
               Ok tt (mkUI (Some (s ui)) (Printer u2) (State u2) (UIState u2)
                           (s u2) (Label u2) [s ui] (t u2) (width u2)
                           (height u2) (scaleFactor u2) (heap u2)
                           (trace u2 ++ [EvShow (s ui);
                                         EvGridAttach (s ui) 1 0 1 1;
                                         EvGridShowAll]))).
  { rewrite (Add_first (s u2) (mkPanelObj (s ui) None) u2).
    - rewrite Qs, Qg, Hg, container_attach_nil. reflexivity.
    - now rewrite Qc.
    - now rewrite Qh, Qs. }
  eexists. eexists. split.
  - unfold verifyConnection, bind. rewrite E1, E2, Hm.
    unfold defer, install, bind, read. rewrite Qu, Hu.
    cbn [String.eqb Ascii.eqb Bool.eqb]. cbv beta iota.
    rewrite Ha. reflexivity.
  - cbn. rewrite Ht. rewrite <- app_assoc. split; [reflexivity|].
    split; [|auto].
    rewrite filter_app, Hn. reflexivity.
Qed.

End ReconcilerClaims.

(** ** Properties of [errToUser] and [New] *)

Lemma append_String (c : ascii) (a b : string) :
  (String c a ++ b)%string = String c (a ++ b)%string.
Proof. reflexivity. Qed.

Lemma append_empty (b : string) : (EmptyString ++ b)%string = b.
Proof. reflexivity. Qed.

Lemma prefix_app (p str : string) :
  String.prefix p str = true <-> exists b, str = (p ++ b)%string.
Proof.
  revert str. induction p as [|c p IH]; intros str.
  - split; [intros _; now exists str|intros _; now destruct str].
  - destruct str as [|c' str]; cbn.
    + split; [discriminate|intros [b Hb]; discriminate].
    + destruct (ascii_dec c c') as [<-|Hne].
      * rewrite IH. split; intros [b Hb]; exists b;
          rewrite append_String in *; congruence.
      * split; [discriminate|].
        intros [b Hb]. rewrite append_String in Hb. congruence.
Qed.

(** [Contains] decides whether [substr] occurs in [str]. *)
Lemma Contains_iff (str substr : string) :
  Contains str substr = true <->
  exists a b, str = (a ++ substr ++ b)%string.
Proof.
  split.
  - induction str as [|c rest IH]; cbn [Contains]; rewrite orb_true_iff.
    + intros [H|H]; [|discriminate].
      apply prefix_app in H as [b Hb]. now exists EmptyString, b.
    + intros [H|H].
      * apply prefix_app in H as [b Hb]. now exists EmptyString, b.
      * destruct (IH H) as (a & b & Hab). exists (String c a), b.
        now rewrite append_String, Hab.
  - intros (a & b & ->). induction a as [|c a IH].
    + rewrite append_empty.
      assert (Hp : String.prefix substr (substr ++ b) = true)
        by (apply prefix_app; now exists b).
      destruct (substr ++ b)%string; cbn [Contains]; now rewrite Hp.
    + rewrite append_String. cbn [Contains]. rewrite IH. apply orb_true_r.
Qed.

Section FormatClaims.
Context `{D : Deps}.

(** C8: [errToUser] returns a string computed from the error text, the
    endpoint and whether a key is set, and nothing else.  When the text
    contains "connection refused" the result is the friendly message with
    the quoted endpoint and the boolean; otherwise it is the generic message
    followed by the error text. *)
Theorem errToUser_format (err : error) (ui : UI) :
  ((exists a b, Error err = (a ++ "connection refused" ++ b)%string) ->
   errToUser err ui =
   ("Unable to connect to " ++ Quote (Endpoint (Printer ui)) ++
    " (Key: " ++ (if String.eqb (APIKey (Printer ui)) "" then "false" else "true") ++
    "), " ++ newline ++ "maybe OctoPrint not running?")%string) /\
  (~ (exists a b, Error err = (a ++ "connection refused" ++ b)%string) ->
   errToUser err ui = ("Unexpected error: " ++ Error err)%string) /\
  (forall err' ui',
     Error err' = Error err ->
     Endpoint (Printer ui') = Endpoint (Printer ui) ->
     (APIKey (Printer ui') = "" <-> APIKey (Printer ui) = "") ->
     errToUser err' ui' = errToUser err ui).
Proof.
  repeat split.
  - intros H. apply Contains_iff in H. unfold errToUser. rewrite H.
    now destruct (String.eqb (APIKey (Printer ui)) "").
  - intros H. unfold errToUser.
    destruct (Contains (Error err) "connection refused") eqn:E; [|reflexivity].
    apply Contains_iff in E. contradiction.
  - intros err' ui' He Hp Hk. unfold errToUser. rewrite He, Hp.
    replace (String.eqb (APIKey (Printer ui')) "")
      with (String.eqb (APIKey (Printer ui)) ""); [reflexivity|].
    destruct (String.eqb_spec (APIKey (Printer ui)) ""),
             (String.eqb_spec (APIKey (Printer ui')) ""); tauto.
Qed.

(** C9, amended: the output of [errToUser] depends on the API key only
    through whether it is empty.  Two configurations with the same endpoint
    whose keys are both empty or both non-empty give the same output on the
    same error; in particular any non-empty key gives the output of any
    other non-empty key. *)
Theorem errToUser_key_noninterference (err : error) (ui1 ui2 : UI) :
  Endpoint (Printer ui1) = Endpoint (Printer ui2) ->
  (APIKey (Printer ui1) = "" <-> APIKey (Printer ui2) = "") ->
  errToUser err ui1 = errToUser err ui2.
Proof.
  intros Hp Hk. unfold errToUser. rewrite Hp.
  replace (String.eqb (APIKey (Printer ui1)) "")
    with (String.eqb (APIKey (Printer ui2)) ""); [reflexivity|].
  destruct (String.eqb_spec (APIKey (Printer ui1)) ""),
           (String.eqb_spec (APIKey (Printer ui2)) ""); tauto.
Qed.

End FormatClaims.

(** C10: [New] with a zero width or a zero height stores the defaults 800
    and 480 for both dimensions, also for the one that was not zero; with
    both non-zero it stores them as given. *)
Theorem New_dimensions (endpoint key : string) (w h : Z) (st : Startup) :
  let ui := New endpoint key w h st in
  (w = 0%Z \/ h = 0%Z -> width ui = 800%Z /\ height ui = 480%Z) /\
  (w <> 0%Z -> h <> 0%Z -> width ui = w /\ height ui = h).
Proof.
  intros ui.
  assert (Hw : (width ui, height ui) =
               if (w =? 0)%Z || (h =? 0)%Z then (800%Z, 480%Z) else (w, h)).
  { unfold ui, New. destruct st as [n [e|] l [se|]];
      destruct ((w =? 0)%Z || (h =? 0)%Z); reflexivity. }
  split.
  - intros Hz.
    assert (Hb : (w =? 0)%Z || (h =? 0)%Z = true).
    { apply orb_true_iff. destruct Hz; [left|right]; now apply Z.eqb_eq. }
    rewrite Hb in Hw. now inversion Hw.
  - intros Hw0 Hh0.
    assert (Hb : (w =? 0)%Z || (h =? 0)%Z = false).
    { apply orb_false_iff. split; now apply Z.eqb_neq. }
    rewrite Hb in Hw. now inversion Hw.
Qed.

(** ** The theorems at concrete inputs *)

Lemma same_mode_polls_no_swap_witness :
  exists ui' es,
    polls (D:=demo) [pollOk "Operational" 5; pollOk "Operational" 10] uiIdle
      = Ok tt ui' /\
    trace ui' = trace uiIdle ++ es /\
    filter nav_event es = [] /\
    length (filter watchdog es) = 2 /\
    Current ui' = Current uiIdle /\
    g ui' = g uiIdle /\
    heap ui' = heap uiIdle /\
    UIState ui' = UIState uiIdle.
Proof.
  apply (same_mode_polls_no_swap (D:=demo)
           [pollOk "Operational" 5; pollOk "Operational" 10] uiIdle).
  repeat (constructor; [vm_compute; reflexivity|]). constructor.
Defined.

Lemma classification_precedence_witness :
  query (pollOk "Operational" 0) = inl "Operational" /\
  UIState (final (verifyConnection (D:=permissive) (pollOk "Operational" 0) ui0))
  = "idle".
Proof.
  split; [reflexivity|].
  destruct (classification_precedence (D:=permissive)
              (pollOk "Operational" 0) "Operational" ui0 eq_refl)
    as (_ & _ & _ & _ & _ & H & _).
  apply H; reflexivity.
Defined.

(** The sample constructors leave [ui.t] alone. *)
Lemma allocPanel_keeps_t (parent : Panel) : keeps_t (allocPanel parent).
Proof. intros ui. reflexivity. Qed.

Lemma mercy_window_witness :
  query pollAt31 = inr (mkError "timeout") /\
  (Since (now pollAt31) (t ui0) > 30 * Second)%Z /\
  Label (final (verifyConnection (D:=demo) pollAt31 ui0))
  = errToUser (D:=demo) (mkError "timeout") ui0 /\
  polls (D:=demo) [pollOk "Operational" 0] ui0 = Ok tt uiIdle /\
  Label (final (verifyConnection (D:=demo) pollAt31 uiIdle))
  = errToUser (D:=demo) (mkError "timeout") uiIdle.
Proof.
  split; [reflexivity|]. split; [reflexivity|].
  destruct (mercy_window (D:=demo) pollAt31 (mkError "timeout") ui0 eq_refl)
    as (_ & H & _ & _ & _ & _ & _ & _ & Hrun & _).
  split; [apply H; reflexivity|].
  assert (E : polls (D:=demo) [pollOk "Operational" 0] ui0 = Ok tt uiIdle)
    by (vm_compute; reflexivity).
  split; [exact E|].
  destruct (Hrun (allocPanel_keeps_t None) (allocPanel_keeps_t None))
    as (_ & Hpre).
  destruct (Hpre [pollOk "Operational" 0] uiIdle E) as (_ & Hlate).
  apply Hlate. reflexivity.
Defined.

Lemma connect_failure_shown_at_once_witness :
  UIState (final (verifyConnection (D:=demo) pollRefused ui0)) = "splash" /\
  Label (final (verifyConnection (D:=demo) pollRefused ui0))
  = "Error connecting to printer: dial tcp: connection refused".
Proof.
  destruct (connect_failure_shown_at_once (D:=demo) pollRefused "Error" ui0
              eq_refl eq_refl eq_refl eq_refl) as (_ & H & _).
  apply (H (mkError "dial tcp: connection refused")). reflexivity.
Defined.

Lemma first_splash_poll_installs_splash_witness :
  targetMode (D:=demo) pollAt31 = "splash" /\
  UIState ui0 = "" /\
  Current ui0 = None /\
  (forall io', targetMode (D:=demo) io' <> UIState ui0) /\
  exists ui' es,
    verifyConnection (D:=demo) pollAt31 ui0 = Ok tt ui' /\
    trace ui' = trace ui0 ++ es /\
    filter nav_event es = [EvShow (s ui0); EvGridAttach (s ui0) 1 0 1 1] /\
    Current ui' = Some (s ui0) /\
    g ui' = [s ui0] /\
    UIState ui' = "splash".
Proof.
  split; [reflexivity|].
  apply (first_splash_poll_installs_splash (D:=demo)
           "http://host:80" "secret" 0 0 boot pollAt31).
  reflexivity.
Defined.

Lemma errToUser_format_witness :
  errToUser (D:=demo) (mkError "dial tcp: connection refused") ui0 =
  ("Unable to connect to " ++ dquote ++ "http://host:80" ++ dquote ++
   " (Key: true), " ++ newline ++ "maybe OctoPrint not running?")%string.
Proof.
  destruct (errToUser_format (D:=demo)
              (mkError "dial tcp: connection refused") ui0) as (H & _).
  apply H. exists "dial tcp: ", "". reflexivity.
Defined.

Lemma errToUser_key_noninterference_witness :
  errToUser (D:=demo) (mkError "dial tcp: connection refused") ui0 =
  errToUser (D:=demo) (mkError "dial tcp: connection refused") uiKeyTrue.
Proof.
  apply (errToUser_key_noninterference (D:=demo)).
  - reflexivity.
  - split; discriminate.
Defined.

Lemma New_dimensions_witness :
  width (New "http://host:80" "secret" 1024 0 boot) = 800%Z /\
  height (New "http://host:80" "secret" 1024 0 boot) = 480%Z.
Proof.
  destruct (New_dimensions "http://host:80" "secret" 1024 0 boot) as (H & _).
  apply H. right. reflexivity.
Defined.

(** ** Where the code departs from the specification *)

(** C3 as stated fails at exactly 30 seconds: the comparison is strict, so
    the label is still left alone. *)
Lemma mercy_boundary_counterexample :
  query pollAt30 = inr (mkError "timeout") /\
  Since (now pollAt30) (t ui0) = (30 * Second)%Z /\
  Label (final (verifyConnection (D:=demo) pollAt30 ui0)) = Label ui0 /\
  Label (final (verifyConnection (D:=demo) pollAt30 ui0))
  <> errToUser (D:=demo) (mkError "timeout") ui0.
Proof.
  split; [reflexivity|]. split; [reflexivity|].
  split; [vm_compute; reflexivity|]. vm_compute. discriminate.
Qed.

(** C5 as stated fails on a freshly built [UI]: the recorded mode is the
    empty string, and a first poll with target mode splash attaches the
    splash panel. *)
Lemma initial_mode_counterexample :
  UIState ui0 <> "splash" /\
  targetMode (D:=demo) pollAt30 = "splash" /\
  Current ui0 = None /\
  g ui0 = [] /\
  Current (final (verifyConnection (D:=demo) pollAt30 ui0)) = Some (s ui0) /\
  g (final (verifyConnection (D:=demo) pollAt30 ui0)) = [s ui0] /\
  filter nav_event
    (drop (length (trace ui0))
          (trace (final (verifyConnection (D:=demo) pollAt30 ui0))))
  = [EvShow (s ui0); EvGridAttach (s ui0) 1 0 1 1].
Proof.
  split; [vm_compute; discriminate|].
  repeat split; vm_compute; reflexivity.
Qed.

(** C9 as stated fails when the key happens to occur in what is printed: the
    key "true" occurs in the friendly message, and a key quoted by the error
    text occurs in the generic one. *)
Lemma key_in_output_counterexample :
  APIKey (Printer uiKeyTrue) = "true" /\
  Contains (errToUser (D:=demo) (mkError "dial tcp: connection refused")
                      uiKeyTrue)
           (APIKey (Printer uiKeyTrue)) = true /\
  APIKey (Printer ui0) = "secret" /\
  Contains (errToUser (D:=demo) (mkError "403 for key secret") ui0)
           (APIKey (Printer ui0)) = true.
Proof. repeat split; vm_compute; reflexivity. Qed.

(** ** Further properties: the navigator on any steady state *)

Lemma filter_nav_attach (p : PanelRef) (o : PanelObj) :
  filter nav_event (attach_calls p o ++ [EvGridShowAll]) = attach_calls p o.
Proof. reflexivity. Qed.

(** [Add] of a live panel on a steady state: the result. *)
Lemma Add_live (p : PanelRef) (op : PanelObj) (ui : UI) :
  steady ui ->
  heap ui !! p = Some op ->
  exists ui',
    Add (Some p) ui = Ok tt ui' /\
    Current ui' = Some p /\
    g ui' = [pGrid op] /\
    frames ui ui' /\
    trace ui' = trace ui ++ detach_calls ui ++ attach_calls p op
                         ++ [EvGridShowAll] /\
    steady ui'.
Proof.
  intros [Hinv Hs] Hp. unfold display_inv in Hinv. unfold detach_calls.
  destruct (Current ui) as [q|] eqn:Hc.
  - destruct Hinv as (oq & Hq & Hg). rewrite Hq.
    rewrite (Add_swap p q op oq ui Hc Hq Hp).
    rewrite Hg, container_remove_single, container_attach_nil.
    eexists. split; [reflexivity|]. cbn.
    repeat split; try reflexivity.
    + eexists. reflexivity.
    + unfold display_inv. cbn. eauto.
    + exact Hs.
  - rewrite (Add_first p op ui Hc Hp).
    rewrite Hinv, container_attach_nil.
    eexists. split; [reflexivity|]. cbn.
    repeat split; try reflexivity.
    + eexists. reflexivity.
    + unfold display_inv. cbn. eauto.
    + exact Hs.
Qed.

Lemma steady_set_UIState (m : string) (ui : UI) :
  steady ui -> steady (set_UIState m ui).
Proof. intros H. exact H. Qed.

Lemma steady_quiet (n : nat) (ui ui' : UI) :
  quiet n ui ui' -> steady ui -> steady ui'.
Proof.
  intros [Hc Hg Hh _ Hs _ _ _] [Hinv Hl]. unfold steady, display_inv in *.
  rewrite Hc, Hg, Hh, Hs. auto.
Qed.

Lemma steady_built (p : PanelRef) (ui ui' : UI) :
  built p ui ui' -> steady ui -> steady ui'.
Proof.
  intros B [Hinv [os Hos]]. unfold steady, display_inv in *.
  rewrite (b_Current _ _ _ B), (b_g _ _ _ B), (b_s _ _ _ B). split.
  - destruct (Current ui) as [q|]; [|exact Hinv].
    destruct Hinv as (o & Ho & Hg). exists o.
    split; [apply (b_heap _ _ _ B), Ho|exact Hg].
  - exists os. apply (b_heap _ _ _ B), Hos.
Qed.

(** The sample constructors allocate, and do nothing else. *)
Lemma allocPanel_constructs (parent : Panel) : constructs (allocPanel parent).
Proof.
  intros ui. unfold allocPanel, bind, read, modify, ret.
  set (r := fresh (dom (heap ui))).
  assert (Hr : heap ui !! r = None).
  { apply not_elem_of_dom. apply is_fresh. }
  eexists. eexists. split; [reflexivity|].
  split; cbn; try reflexivity.
  - rewrite lookup_insert_eq. eauto.
  - intros q o Hq. rewrite lookup_insert_ne; [exact Hq|].
    intros E. assert (Hn : heap ui !! q = None) by (rewrite <- E; exact Hr).
    change (heap ui !! q = Some o) in Hq. rewrite Hn in Hq. discriminate.
  - exists []. rewrite app_nil_r. auto.
Qed.

(** ** Further properties: one poll, step by step *)

Section FurtherReconciler.
Context `{D : Deps}.
Hypothesis idle_constructs : constructs IdleStatusPanel.
Hypothesis printing_constructs : constructs PrintStatusPanel.

Lemma targetMode_cases (io : Poll) :
  targetMode io = "idle" \/ targetMode io = "printing" \/
  targetMode io = "splash".
Proof.
  unfold targetMode. destruct (query io) as [st|]; [|auto].
  destruct (IsOperational st); [auto|]. destruct (IsPrinting st); auto.
Qed.

Lemma sdNotify_effect (res : option error) (ui : UI) :
  exists u1 es,
    sdNotify "WATCHDOG=1" res ui = Ok tt u1 /\
    frames ui u1 /\ Current u1 = Current ui /\ g u1 = g ui /\
    trace u1 = trace ui ++ es /\
    filter watchdog es = [EvSdNotify "WATCHDOG=1"] /\
    filter connects es = [] /\
    filter nav_event es = [].
Proof.
  run_rec. destruct res; run; eexists; eexists;
    (split; [reflexivity|]);
    (split; [split; cbn; try reflexivity; eexists;
             rewrite <- ?app_assoc; reflexivity|]);
    cbn; rewrite <- ?app_assoc; repeat split; reflexivity.
Qed.

Lemma classify_effect (io : Poll) (ui : UI) :
  exists ui', classify io ui = Ok (targetMode io) ui' /\ classified io ui ui'.
Proof.
  unfold targetMode. run_rec.
  destruct (query io) as [st|err] eqn:Hq; run.
  - destruct (IsOperational st) eqn:Ho; run; [classified_done|].
    destruct (IsPrinting st) eqn:Hp; run; [classified_done|].
    destruct (IsError st) eqn:He; run.
    { destruct (connect io) eqn:Hc; run; classified_done. }
    destruct (IsOffline st) eqn:Hf; run.
    { destruct (connect io) eqn:Hc; run; classified_done. }
    destruct (IsConnecting st) eqn:Hn; run; classified_done.
  - destruct (Since (now io) (t ui) >? errMercyPeriod)%Z eqn:Hl; run;
      classified_done.
Qed.

Lemma detach_calls_filters (ui : UI) :
  filter attaches (detach_calls ui) = [] /\
  filter watchdog (detach_calls ui) = [] /\
  filter connects (detach_calls ui) = [] /\
  filter nav_event (detach_calls ui) = detach_calls ui.
Proof.
  unfold detach_calls. destruct (Current ui) as [q|]; [|auto].
  destruct (heap ui !! q); auto.
Qed.

(** The events of [Add] on a live panel, filtered. *)
Lemma Add_live_filters (p : PanelRef) (op : PanelObj) (ui : UI)
      (pre : list Event) :
  filter watchdog pre = [] ->
  filter connects pre = [] ->
  filter nav_event pre = [] ->
  let es := pre ++ detach_calls ui ++ attach_calls p op ++ [EvGridShowAll] in
  filter watchdog es = [] /\
  filter connects es = [] /\
  filter nav_event es = detach_calls ui ++ attach_calls p op.
Proof.
  intros Hw Hc Hn es. unfold es.
  destruct (detach_calls_filters ui) as (_ & Dw & Dc & Dn).
  rewrite !filter_app, Hw, Hc, Hn, Dw, Dc, Dn. cbn.
  rewrite app_nil_r. auto.
Qed.

(** The installer when a panel constructor is involved. *)
Lemma install_built (c : M Panel) (m : string) (msg : string) (ui : UI) :
  constructs c ->
  steady ui ->
  m <> UIState ui ->
  m <> "splash" ->
  exists ui',
    defer (modify (set_UIState m))
          (emit (EvLog LvInfo msg) >> let* p := c in Add p) ui = Ok tt ui' /\
    installed m ui ui'.
Proof.
  intros Hc Hst Hne Hns.
  unfold defer, bind, emit, modify.
  destruct (Hc (push (EvLog LvInfo msg) ui)) as (p & u3 & E3 & B).
  rewrite E3.
  assert (Hst0 : steady (push (EvLog LvInfo msg) ui)) by exact Hst.
  pose proof (steady_built p _ _ B Hst0) as Hst3.
  destruct (b_live _ _ _ B) as [op Hp].
  destruct (Add_live p op u3 Hst3 Hp) as (u4 & E4 & Hcur & Hg & F & Ht & Hst4).
  rewrite E4. eexists. split; [reflexivity|].
  destruct (b_trace _ _ _ B) as (eb & Tb & Nb & Wb & Cb).
  assert (Hd : detach_calls u3 = detach_calls ui).
  { unfold detach_calls. rewrite (b_Current _ _ _ B). cbn.
    destruct Hst as [Hinv _]. unfold display_inv in Hinv.
    destruct (Current ui) as [q|]; [|reflexivity].
    destruct Hinv as (o & Ho & _). rewrite Ho.
    now rewrite (b_heap _ _ _ B q o Ho). }
  assert (Hsh : show_calls (set_UIState m u4) = attach_calls p op).
  { unfold show_calls. cbn. rewrite Hcur, (fr_heap _ _ F), Hp. reflexivity. }
  split; cbn.
  - reflexivity.
  - rewrite (fr_s _ _ F). apply (b_s _ _ _ B).
  - rewrite (fr_t _ _ F). apply (b_t _ _ _ B).
  - rewrite (fr_Printer _ _ F). apply (b_Printer _ _ _ B).
  - rewrite (fr_State _ _ F). apply (b_State _ _ _ B).
  - rewrite (fr_Label _ _ F). apply (b_Label _ _ _ B).
  - intros q o Ho. rewrite (fr_heap _ _ F). now apply (b_heap _ _ _ B).
  - exact Hst4.
  - intros E. contradiction.
  - intros _. rewrite Hcur. eauto.
  - intros E. contradiction.
  - exists ((EvLog LvInfo msg :: eb) ++ detach_calls u3 ++ attach_calls p op
            ++ [EvGridShowAll]).
    split.
    { rewrite Ht, Tb. cbn. rewrite <- !app_assoc. reflexivity. }
    destruct (Add_live_filters p op u3 (EvLog LvInfo msg :: eb))
      as (Fw & Fc & Fn); [cbn; assumption..|].
    rewrite Fw, Fc, Fn, Hd, Hsh.
    destruct (String.eqb_spec m (UIState ui)); [contradiction|auto].
Qed.

(** Lines 151-166 on a steady state, for each of the three modes. *)
Lemma install_effect (m : string) (ui : UI) :
  steady ui ->
  m = "idle" \/ m = "printing" \/ m = "splash" ->
  exists ui',
    defer (modify (set_UIState m)) (install m) ui = Ok tt ui' /\
    installed m ui ui'.
Proof.
  intros Hst Hm. destruct (String.eqb_spec m (UIState ui)) as [Heq|Hne].
  - exists (set_UIState m ui). split.
    + unfold defer, install, bind, read. rewrite Heq, String.eqb_refl.
      reflexivity.
    + split; cbn; try reflexivity; auto.
      * intros Hx. contradiction.
      * intros _ Hx. contradiction.
      * exists []. rewrite app_nil_r, Heq, String.eqb_refl. auto.
  - assert (Hb : String.eqb m (UIState ui) = false)
      by (now apply String.eqb_neq).
    destruct Hm as [->|[->| ->]].
    + destruct (install_built IdleStatusPanel "idle" "Printer is ready" ui
                  idle_constructs Hst Hne) as (ui' & E & I); [discriminate|].
      exists ui'. split; [|exact I]. rewrite <- E.
      unfold defer, install, bind, read. rewrite Hb. reflexivity.
    + destruct (install_built PrintStatusPanel "printing" "Printing a job" ui
                  printing_constructs Hst Hne) as (ui' & E & I); [discriminate|].
      exists ui'. split; [|exact I]. rewrite <- E.
      unfold defer, install, bind, read. rewrite Hb. reflexivity.
    + destruct Hst as [Hinv [os Hos]].
      destruct (Add_live (s ui) os ui (conj Hinv (ex_intro _ os Hos)) Hos)
        as (u4 & E4 & Hcur & Hg & F & Ht & Hst4).
      exists (set_UIState "splash" u4). split.
      * unfold defer, install, bind, read, modify. rewrite Hb.
        cbn [String.eqb Ascii.eqb Bool.eqb]. cbv beta iota.
        rewrite E4. reflexivity.
      * assert (Hsh : show_calls (set_UIState "splash" u4)
                      = attach_calls (s ui) os).
        { unfold show_calls. cbn. rewrite Hcur, (fr_heap _ _ F), Hos.
          reflexivity. }
        split; cbn [set_UIState Current Printer State UIState s Label g t
                         heap trace].
        -- reflexivity.
        -- apply (fr_s _ _ F).
        -- apply (fr_t _ _ F).
        -- apply (fr_Printer _ _ F).
        -- apply (fr_State _ _ F).
        -- apply (fr_Label _ _ F).
        -- intros q o Ho. now rewrite (fr_heap _ _ F).
        -- exact Hst4.
        -- intros Hx. contradiction.
        -- intros _. rewrite Hcur. eauto.
        -- intros _ _. exact Hcur.
        -- exists ([] ++ detach_calls ui ++ attach_calls (s ui) os
                   ++ [EvGridShowAll]).
           split; [exact Ht|].
           destruct (Add_live_filters (s ui) os ui [])
             as (Fw & Fc & Fn); [reflexivity..|].
           rewrite Fw, Fc, Fn, Hb, Hsh. auto.
Qed.

(** One poll on a steady state. *)
Lemma verifyConnection_ticked (io : Poll) (ui : UI) :
  steady ui ->
  exists ui', verifyConnection io ui = Ok tt ui' /\ ticked io ui ui'.
Proof.
  intros Hst.
  destruct (sdNotify_effect (notifyErr io) ui)
    as (u1 & e1 & E1 & F1 & Hc1 & Hg1 & T1 & W1 & C1 & N1).
  destruct (classify_effect io u1) as (u2 & E2 & K).
  assert (Hst2 : steady u2).
  { destruct Hst as [Hinv Hs]. unfold steady, display_inv in *.
    rewrite (c_Current _ _ _ K), (c_g _ _ _ K), (c_heap _ _ _ K),
            (c_s _ _ _ K), Hc1, Hg1, (fr_heap _ _ F1), (fr_s _ _ F1).
    auto. }
  destruct (install_effect (targetMode io) u2 Hst2 (targetMode_cases io))
    as (ui' & E3 & I).
  exists ui'. split.
  { unfold verifyConnection, bind. rewrite E1, E2. exact E3. }
  assert (HU : UIState u2 = UIState ui).
  { now rewrite (c_UIState _ _ _ K), (fr_UIState _ _ F1). }
  assert (HS : s u2 = s ui).
  { now rewrite (c_s _ _ _ K), (fr_s _ _ F1). }
  assert (HH : heap u2 = heap ui).
  { now rewrite (c_heap _ _ _ K), (fr_heap _ _ F1). }
  assert (HC : Current u2 = Current ui).
  { now rewrite (c_Current _ _ _ K). }
  split.
  - apply (i_UIState _ _ _ I).
  - now rewrite (i_s _ _ _ I).
  - now rewrite (i_t _ _ _ I), (c_t _ _ _ K), (fr_t _ _ F1).
  - now rewrite (i_Printer _ _ _ I), (c_Printer _ _ _ K), (fr_Printer _ _ F1).
  - now rewrite (i_State _ _ _ I), (c_State _ _ _ K), (fr_State _ _ F1).
  - rewrite (i_Label _ _ _ I), (c_Label _ _ _ K), (fr_Label _ _ F1).
    unfold labelAfter. rewrite (fr_t _ _ F1).
    destruct (query io) as [st|err]; [reflexivity|].
    now rewrite (errToUser_Printer err ui u1 (fr_Printer _ _ F1)).
  - intros q o Ho. apply (i_heap _ _ _ I). now rewrite HH.
  - apply (i_steady _ _ _ I).
  - intros E. rewrite <- HU in E.
    destruct (i_same _ _ _ I E) as (A & B & C).
    rewrite A, B, C, HC, HH, (c_g _ _ _ K), Hg1. auto.
  - intros E. rewrite <- HU in E. apply (i_changed _ _ _ I E).
  - intros Es E. rewrite <- HU in E. rewrite <- HS.
    apply (i_splash _ _ _ I Es E).
  - destruct (c_trace _ _ _ K) as (e2 & T2 & W2 & C2 & N2).
    destruct (i_trace _ _ _ I) as (e3 & T3 & W3 & C3 & N3).
    exists (e1 ++ e2 ++ e3). split.
    { rewrite T3, T2, T1, <- !app_assoc. reflexivity. }
    rewrite !filter_app, W1, W2, W3, C1, C2, C3, N1, N2, N3, HU.
    assert (Hd : detach_calls u2 = detach_calls ui).
    { unfold detach_calls. now rewrite HC, HH. }
    rewrite Hd, !app_nil_r. cbn. auto.
Qed.

Lemma filter_attaches_nav (es : list Event) :
  filter attaches (filter nav_event es) = filter attaches es.
Proof.
  induction es as [|e es IH]; [reflexivity|].
  rewrite !filter_cons.
  destruct e; cbn [attaches nav_event]; repeat case_decide; try tauto;
    rewrite ?filter_cons; repeat case_decide; try tauto;
    cbn in *; try tauto; congruence.
Qed.

Lemma show_calls_attach (ui : UI) :
  steady ui -> is_Some (Current ui) ->
  length (filter attaches (show_calls ui)) = 1.
Proof.
  intros [Hinv _] [p Hp]. unfold display_inv, show_calls in *.
  rewrite Hp in *. destruct Hinv as (o & Ho & _). now rewrite Ho.
Qed.

Lemma tick_attach_count (io : Poll) (ui ui' : UI) (es : list Event) :
  ticked io ui ui' ->
  filter nav_event es =
    (if String.eqb (targetMode io) (UIState ui) then []
     else detach_calls ui ++ show_calls ui') ->
  length (filter attaches es) =
    if String.eqb (targetMode io) (UIState ui) then 0 else 1.
Proof.
  intros K Hn. rewrite <- filter_attaches_nav, Hn.
  destruct (String.eqb_spec (targetMode io) (UIState ui)) as [E|E];
    [reflexivity|].
  destruct (detach_calls_filters ui) as (Da & _).
  rewrite filter_app, Da. cbn [app].
  apply show_calls_attach; [apply (k_steady _ _ _ K)|].
  apply (k_changed _ _ _ K E).
Qed.

Lemma labelAfter_ext (io : Poll) (ui ui' : UI) (l : string) :
  t ui' = t ui -> Printer ui' = Printer ui ->
  labelAfter io ui' l = labelAfter io ui l.
Proof.
  intros Ht Hp. unfold labelAfter. rewrite Ht.
  destruct (query io) as [st|err]; [reflexivity|].
  now rewrite (errToUser_Printer err ui ui' Hp).
Qed.

Lemma fold_labelAfter_ext (ios : list Poll) (ui ui' : UI) (l : string) :
  t ui' = t ui -> Printer ui' = Printer ui ->
  fold_left (fun l io => labelAfter io ui' l) ios l =
  fold_left (fun l io => labelAfter io ui l) ios l.
Proof.
  intros Ht Hp. revert l. induction ios as [|io rest IH]; intros l.
  - reflexivity.
  - cbn. rewrite IH. now rewrite (labelAfter_ext io ui ui' l Ht Hp).
Qed.

(** A run of polls on a steady state. *)
Lemma polls_ran (ios : list Poll) (ui : UI) :
  steady ui ->
  exists ui', polls ios ui = Ok tt ui' /\ ran ios ui ui'.
Proof.
  revert ui. induction ios as [|io rest IH]; intros ui Hst.
  - exists ui. split; [reflexivity|].
    split; try reflexivity; auto.
    exists []. rewrite app_nil_r. auto.
  - destruct (verifyConnection_ticked io ui Hst) as (u1 & E1 & K).
    destruct (IH u1 (k_steady _ _ _ K)) as (u2 & E2 & R).
    exists u2. split.
    { cbn [polls]. unfold bind. now rewrite E1. }
    destruct (k_trace _ _ _ K) as (e1 & T1 & W1 & C1 & N1).
    destruct (r_trace _ _ _ R) as (e2 & T2 & W2 & C2 & A2).
    split.
    + rewrite (r_UIState _ _ _ R), (k_UIState _ _ _ K). reflexivity.
    + now rewrite (r_s _ _ _ R), (k_s _ _ _ K).
    + now rewrite (r_t _ _ _ R), (k_t _ _ _ K).
    + now rewrite (r_Printer _ _ _ R), (k_Printer _ _ _ K).
    + rewrite (r_State _ _ _ R), (k_State _ _ _ K). reflexivity.
    + rewrite (r_Label _ _ _ R), (k_Label _ _ _ K).
      apply (fold_labelAfter_ext rest ui u1);
        [apply (k_t _ _ _ K)|apply (k_Printer _ _ _ K)].
    + intros q o Ho. apply (r_heap _ _ _ R), (k_heap _ _ _ K), Ho.
    + apply (r_steady _ _ _ R).
    + exists (e1 ++ e2). split.
      { now rewrite T2, T1, <- app_assoc. }
      rewrite !filter_app, !length_app, W1, W2, C1, C2, A2.
      rewrite (tick_attach_count io ui u1 e1 K N1), (k_UIState _ _ _ K).
      cbn [changes length].
      repeat split; try reflexivity.
      destruct (needsConnect io) eqn:Hn.
      * rewrite filter_cons_True by (now rewrite Hn). reflexivity.
      * rewrite filter_cons_False by (now rewrite Hn). reflexivity.
Qed.

Lemma coherent_ticked (io : Poll) (ui ui' : UI) :
  ticked io ui ui' -> coherent ui -> coherent ui'.
Proof.
  intros K [H1 H2]. unfold coherent.
  rewrite (k_UIState _ _ _ K), (k_s _ _ _ K).
  destruct (String.eqb_spec (targetMode io) (UIState ui)) as [E|E].
  - destruct (k_same _ _ _ K E) as (Hc & _ & _). rewrite Hc, E. auto.
  - split.
    + intros _. apply (k_changed _ _ _ K E).
    + intros Es. apply (k_splash _ _ _ K Es E).
Qed.

Lemma polls_coherent (ios : list Poll) (ui ui' : UI) :
  steady ui -> coherent ui -> polls ios ui = Ok tt ui' -> coherent ui'.
Proof.
  revert ui. induction ios as [|io rest IH]; intros ui Hst Hco E.
  - injection E as <-. exact Hco.
  - destruct (verifyConnection_ticked io ui Hst) as (u1 & E1 & K).
    cbn [polls] in E. unfold bind in E. rewrite E1 in E.
    apply (IH u1 (k_steady _ _ _ K) (coherent_ticked io ui u1 K Hco) E).
Qed.

Lemma lastMode_nonempty (m0 : string) (ios : list Poll) :
  ios <> [] -> lastMode m0 ios <> "".
Proof.
  intros Hne. destruct (exists_last Hne) as (pre & io & ->).
  unfold lastMode. rewrite fold_left_app. cbn.
  destruct (targetMode_cases io) as [->|[->| ->]]; discriminate.
Qed.

End FurtherReconciler.

Lemma New_steady (endpoint key : string) (w h : Z) (st : Startup) :
  steady (New endpoint key w h st) /\ coherent (New endpoint key w h st).
Proof.
  split.
  - split; [apply New_display_inv|].
    destruct st as [n [e|] l [se|]]; cbn; eauto.
  - split.
    + intros H. destruct st as [n [e|] l [se|]]; now contradiction H.
    + destruct st as [n [e|] l [se|]]; discriminate.
Qed.

(** ** Further properties: construction and navigation *)

(** X1: the scale factor stored by [New] is 2 when the stored width exceeds
    480 and 1 otherwise; the case for widths above 1000 is never reached, so
    the scale factor is never 3. *)
Theorem New_scaleFactor (endpoint key : string) (w h : Z) (st : Startup) :
  let ui := New endpoint key w h st in
  scaleFactor ui = (if (width ui >? 480)%Z then 2 else 1)%Z /\
  scaleFactor ui <> 3%Z /\
  ((1000 < width ui)%Z -> scaleFactor ui = 2%Z).
Proof.
  intros ui.
  assert (H : scaleFactor ui = (if (width ui >? 480)%Z then 2 else 1)%Z).
  { unfold ui, New. destruct st as [n [e|] l [se|]];
      (destruct ((w =? 0)%Z || (h =? 0)%Z); cbn; [reflexivity|]);
      (destruct (Z.gtb_spec w 480); [reflexivity|]);
      (destruct (Z.gtb_spec w 1000); [lia|reflexivity]). }
  split; [exact H|]. split.
  - rewrite H. destruct (width ui >? 480)%Z; discriminate.
  - intros Hw. rewrite H. destruct (Z.gtb_spec (width ui) 480); [reflexivity|lia].
Qed.

Lemma New_scaleFactor_witness :
  (1000 < width (New "http://host:80" "secret" 1920 1080 boot))%Z /\
  scaleFactor (New "http://host:80" "secret" 1920 1080 boot) = 2%Z.
Proof.
  split; [reflexivity|].
  destruct (New_scaleFactor "http://host:80" "secret" 1920 1080 boot)
    as (_ & _ & H).
  apply H. reflexivity.
Defined.

(** X2: the toolkit calls of [New], constructors apart, in order: the GDK
    screen is fetched and the style provider registered for it, or the error
    logged if there is no screen; then the title, the default size with the
    stored (possibly defaulted) dimensions, not resizable, the two signal
    handlers, the overlay into the window, the grid and the notifications
    into the overlay, the readiness signal, a log line if that signal
    failed, and [ShowAll] last.  A missing screen or a failed signal stops
    none of the later calls.  The [UI] returned has no current panel, an
    empty display slot, the construction time and the client for the given
    endpoint and key. *)
Theorem New_startup_calls (endpoint key : string) (w h : Z) (st : Startup) :
  let ui := New endpoint key w h st in
  trace ui =
    [EvScreenGetDefault] ++
    match startScreenErr st with
    | Some err => [EvLog LvError ("Error getting GDK screen: " ++ Error err)%string]
    | None => [EvAddProviderForScreen]
    end ++
    [EvSetTitle "OctoScreen"; EvSetDefaultSize (width ui) (height ui);
     EvSetResizable false; EvConnect "show"; EvConnect "destroy";
     EvWindowAdd; EvOverlayAdd; EvAddOverlay; EvSdNotify "READY=1"] ++
    match startNotifyErr st with
    | Some err => [EvLog LvError ("Error sending notification: " ++ Error err)%string]
    | None => []
    end ++ [EvWindowShowAll] /\
  Current ui = None /\
  g ui = [] /\
  t ui = startNow st /\
  Printer ui = mkClient endpoint key /\
  steady ui.
Proof.
  intros ui. split.
  - unfold ui, New. destruct st as [n [e|] l [se|]];
      destruct ((w =? 0)%Z || (h =? 0)%Z); reflexivity.
  - pose proof (proj1 (New_steady endpoint key w h st)) as Hs.
    refine (conj _ (conj _ (conj _ (conj _ Hs))));
      unfold ui; destruct st as [n [e|] l [se|]]; reflexivity.
Qed.

(** X3: on a steady state, [Add] of any existing panel returns normally,
    makes that panel current and leaves exactly its node in the display
    slot.  It detaches and hides the previous panel if there was one and
    makes no detach call otherwise; the mode, the label, the client, the
    construction time and the panel objects are untouched. *)
Theorem Add_on_steady (p : PanelRef) (op : PanelObj) (ui : UI) :
  steady ui ->
  heap ui !! p = Some op ->
  exists ui',
    Add (Some p) ui = Ok tt ui' /\
    Current ui' = Some p /\
    g ui' = [pGrid op] /\
    steady ui' /\
    trace ui' = trace ui ++ detach_calls ui ++
                [EvShow p; EvGridAttach (pGrid op) 1 0 1 1; EvGridShowAll] /\
    (Current ui = None -> detach_calls ui = []) /\
    UIState ui' = UIState ui /\
    Label ui' = Label ui /\
    Printer ui' = Printer ui /\
    t ui' = t ui /\
    heap ui' = heap ui.
Proof.
  intros Hst Hp.
  destruct (Add_live p op ui Hst Hp) as (ui' & E & Hc & Hg & F & Ht & Hst').
  exists ui'. destruct F as [FP FS FU Fs FL Ft Fh _].
  refine (conj E (conj Hc (conj Hg (conj Hst' (conj Ht (conj _
            (conj FU (conj FL (conj FP (conj Ft Fh)))))))))).
  intros Hn. unfold detach_calls. now rewrite Hn.
Qed.

Lemma Add_on_steady_witness :
  exists ui',
    Add (Some 1%positive) ui0 = Ok tt ui' /\
    Current ui' = Some 1%positive /\
    g ui' = [1%positive] /\
    steady ui' /\
    trace ui' = trace ui0 ++ detach_calls ui0 ++
                [EvShow 1%positive; EvGridAttach 1%positive 1 0 1 1;
                 EvGridShowAll] /\
    (Current ui0 = None -> detach_calls ui0 = []) /\
    UIState ui' = UIState ui0 /\
    Label ui' = Label ui0 /\
    Printer ui' = Printer ui0 /\
    t ui' = t ui0 /\
    heap ui' = heap ui0.
Proof.
  apply (Add_on_steady 1%positive (mkPanelObj 1%positive None) ui0).
  - apply (New_steady "http://host:80" "secret" 0 0 boot).
  - vm_compute. reflexivity.
Defined.

(** X4: [GoHistory] at the top of the stack.  With no current panel it
    panics at once and changes nothing.  With a current panel that has no
    parent it panics after the current panel was detached and hidden: no
    panel is current any more and the display slot is empty. *)
Theorem GoHistory_at_top (ui : UI) :
  (Current ui = None -> GoHistory ui = Panic ui) /\
  (forall q oq,
     Current ui = Some q ->
     heap ui !! q = Some oq ->
     pParent oq = None ->
     display_inv ui ->
     exists ui',
       GoHistory ui = Panic ui' /\
       Current ui' = None /\
       g ui' = [] /\
       trace ui' = trace ui ++ [EvGridRemove (pGrid oq); EvHide q] /\
       UIState ui' = UIState ui).
Proof.
  split.
  - intros Hc. unfold GoHistory, Parent, deref, bind, read. now rewrite Hc.
  - intros q oq Hc Hq Hpar Hinv.
    unfold display_inv in Hinv. rewrite Hc in Hinv.
    destruct Hinv as (o & Ho & Hg). rewrite Hq in Ho. injection Ho as <-.
    run. rewrite Hc; run. rewrite Hq; run. rewrite Hpar, Hc; run.
    rewrite Hq; run. rewrite Hq; run. rewrite Hq; run.
    eexists. split; [reflexivity|]. cbn.
    rewrite Hg, container_remove_single, <- !app_assoc. auto.
Qed.

Lemma GoHistory_at_top_witness :
  exists ui',
    GoHistory uiTop = Panic ui' /\
    Current ui' = None /\
    g ui' = [] /\
    trace ui' = trace uiTop ++ [EvGridRemove 2%positive; EvHide 2%positive] /\
    UIState ui' = UIState uiTop.
Proof.
  destruct (GoHistory_at_top uiTop) as (_ & H).
  apply (H 2%positive (mkPanelObj 2%positive None)).
  - reflexivity.
  - vm_compute. reflexivity.
  - reflexivity.
  - exists (mkPanelObj 2%positive None). split; vm_compute; reflexivity.
Defined.

(** X5: [Remove] of the current panel detaches and hides it and leaves
    [ui.Current] pointing at it: the display slot is then empty although a
    panel is recorded as current.  A following [Add] detaches and hides the
    recorded panel a second time before it shows the new one, and the slot
    holds exactly the new panel's node again. *)
Theorem Remove_leaves_Current (q : PanelRef) (oq : PanelObj) (ui : UI) :
  Current ui = Some q ->
  heap ui !! q = Some oq ->
  display_inv ui ->
  exists ui1,
    Remove (Some q) ui = Ok tt ui1 /\
    Current ui1 = Some q /\
    g ui1 = [] /\
    trace ui1 = trace ui ++ [EvGridRemove (pGrid oq); EvHide q] /\
    ~ display_inv ui1 /\
    forall p op,
      heap ui !! p = Some op ->
      exists ui2,
        Add (Some p) ui1 = Ok tt ui2 /\
        Current ui2 = Some p /\
        g ui2 = [pGrid op] /\
        display_inv ui2 /\
        trace ui2 = trace ui1 ++
                    [EvGridRemove (pGrid oq); EvHide q; EvShow p;
                     EvGridAttach (pGrid op) 1 0 1 1; EvGridShowAll].
Proof.
  intros Hc Hq Hinv. unfold display_inv in Hinv. rewrite Hc in Hinv.
  destruct Hinv as (o & Ho & Hg). rewrite Hq in Ho. injection Ho as <-.
  eexists. split.
  { run. rewrite Hq; run. rewrite Hq; run. rewrite Hq; run. reflexivity. }
  cbn [Current g trace heap]. rewrite Hg, container_remove_single.
  split; [exact Hc|]. split; [reflexivity|].
  split; [now rewrite <- app_assoc|]. split.
  - unfold display_inv. cbn. rewrite Hc. intros (o & _ & Ho). discriminate.
  - intros p op Hp. eexists. split.
    { apply (Add_swap p q op oq); [exact Hc| exact Hq | exact Hp]. }
    cbn [Current g trace heap].
    assert (Hnil : container_remove (pGrid oq) [] = []) by reflexivity.
    rewrite Hnil, container_attach_nil.
    repeat split. unfold display_inv. cbn. eauto.
Qed.

Lemma Remove_leaves_Current_witness :
  exists ui1,
    Remove (Some 3%positive) uiMenu = Ok tt ui1 /\
    Current ui1 = Some 3%positive /\
    g ui1 = [] /\
    trace ui1 = trace uiMenu ++ [EvGridRemove 3%positive; EvHide 3%positive] /\
    ~ display_inv ui1 /\
    forall p op,
      heap uiMenu !! p = Some op ->
      exists ui2,
        Add (Some p) ui1 = Ok tt ui2 /\
        Current ui2 = Some p /\
        g ui2 = [pGrid op] /\
        display_inv ui2 /\
        trace ui2 = trace ui1 ++
                    [EvGridRemove 3%positive; EvHide 3%positive; EvShow p;
                     EvGridAttach (pGrid op) 1 0 1 1; EvGridShowAll].
Proof.
  apply (Remove_leaves_Current 3%positive
           (mkPanelObj 3%positive (Some 2%positive)) uiMenu).
  - reflexivity.
  - vm_compute. reflexivity.
  - exists (mkPanelObj 3%positive (Some 2%positive)).
    split; vm_compute; reflexivity.
Defined.

(** X6: going forward and back is a round trip.  When a child panel whose
    parent is the current panel is added and [GoHistory] is called, the
    panel that was current is current again and the display slot holds its
    node as before; each of the two panels was detached once and attached
    once. *)
Theorem Add_GoHistory_round_trip
    (q c : PanelRef) (oq oc : PanelObj) (ui : UI) :
  Current ui = Some q ->
  heap ui !! q = Some oq ->
  heap ui !! c = Some oc ->
  pParent oc = Some q ->
  display_inv ui ->
  exists ui',
    (Add (Some c) >> GoHistory) ui = Ok tt ui' /\
    Current ui' = Current ui /\
    g ui' = g ui /\
    heap ui' = heap ui /\
    UIState ui' = UIState ui /\
    Label ui' = Label ui /\
    trace ui' = trace ui ++
                [EvGridRemove (pGrid oq); EvHide q; EvShow c;
                 EvGridAttach (pGrid oc) 1 0 1 1; EvGridShowAll;
                 EvGridRemove (pGrid oc); EvHide c; EvShow q;
                 EvGridAttach (pGrid oq) 1 0 1 1; EvGridShowAll].
Proof.
  intros Hc Hq Hch Hpar Hinv. unfold display_inv in Hinv. rewrite Hc in Hinv.
  destruct Hinv as (o & Ho & Hg). rewrite Hq in Ho. injection Ho as <-.
  unfold bind at 1. rewrite (Add_swap c q oc oq ui Hc Hq Hch).
  set (u1 := mkUI _ _ _ _ _ _ _ _ _ _ _ _ _).
  assert (Hgo : GoHistory u1 = Add (Some q) u1).
  { unfold GoHistory, Parent, deref, bind, read, ret. cbn [Current heap u1].
    rewrite Hch. cbn. now rewrite Hpar. }
  rewrite Hgo, (Add_swap q c oq oc u1 eq_refl Hch Hq).
  eexists. split; [reflexivity|].
  cbn [Current g heap UIState Label trace u1].
  rewrite Hg, container_remove_single, container_attach_nil,
          container_remove_single, container_attach_nil, <- app_assoc.
  rewrite Hc. auto 10.
Qed.

Lemma Add_GoHistory_round_trip_witness :
  exists ui',
    (Add (Some 3%positive) >> GoHistory) uiTop = Ok tt ui' /\
    Current ui' = Current uiTop /\
    g ui' = g uiTop /\
    heap ui' = heap uiTop /\
    UIState ui' = UIState uiTop /\
    Label ui' = Label uiTop /\
    trace ui' = trace uiTop ++
                [EvGridRemove 2%positive; EvHide 2%positive; EvShow 3%positive;
                 EvGridAttach 3%positive 1 0 1 1; EvGridShowAll;
                 EvGridRemove 3%positive; EvHide 3%positive; EvShow 2%positive;
                 EvGridAttach 2%positive 1 0 1 1; EvGridShowAll].
Proof.
  apply (Add_GoHistory_round_trip 2%positive 3%positive
           (mkPanelObj 2%positive None)
           (mkPanelObj 3%positive (Some 2%positive)) uiTop).
  - reflexivity.
  - vm_compute. reflexivity.
  - vm_compute. reflexivity.
  - reflexivity.
  - exists (mkPanelObj 2%positive None). split; vm_compute; reflexivity.
Defined.

(** ** Further properties: polls on a steady state *)

Section FurtherClaims.
Context `{D : Deps}.
Hypothesis idle_constructs : constructs IdleStatusPanel.
Hypothesis printing_constructs : constructs PrintStatusPanel.



(** X9: from a steady state and with constructors that return a panel (see
    [constructs]), any run of polls returns normally, the number of its
    attach calls equals the number of polls whose target mode differs from
    the mode recorded before them, and every poll sends exactly one liveness
    signal. *)
Theorem polls_attach_per_change (ios : list Poll) (ui : UI) :
  steady ui ->
  exists ui' es,
    polls ios ui = Ok tt ui' /\
    trace ui' = trace ui ++ es /\
    length (filter attaches es) = changes (UIState ui) ios /\
    length (filter watchdog es) = length ios.
Proof.
  intros Hst.
  destruct (polls_ran idle_constructs printing_constructs ios ui Hst)
    as (ui' & E & R).
  destruct (r_trace _ _ _ R) as (es & T & W & _ & A).
  exists ui', es. auto.
Qed.

(** X10: the connect command is not throttled.  From a steady state and
    with constructors that return a panel (see [constructs]), any run of
    polls returns normally and sends the command once for every poll that
    finds the printer in the error or offline case, and for no other
    poll. *)
Theorem polls_connect_per_error_poll (ios : list Poll) (ui : UI) :
  steady ui ->
  exists ui' es,
    polls ios ui = Ok tt ui' /\
    trace ui' = trace ui ++ es /\
    length (filter connects es) = length (filter needsConnect ios).
Proof.
  intros Hst.
  destruct (polls_ran idle_constructs printing_constructs ios ui Hst)
    as (ui' & E & R).
  destruct (r_trace _ _ _ R) as (es & T & _ & C & _).
  exists ui', es. auto.
Qed.

(** X11: after start-up a panel is always displayed.  With constructors
    that return a panel, any non-empty run of polls on the [UI] that [New]
    returns comes back normally with some panel current, and whenever the
    recorded mode is splash the current panel is the splash panel that [New]
    built. *)
Theorem polls_after_New
    (endpoint key : string) (w h : Z) (st : Startup) (ios : list Poll) :
  ios <> [] ->
  exists ui',
    polls ios (New endpoint key w h st) = Ok tt ui' /\
    is_Some (Current ui') /\
    (UIState ui' = "splash" ->
     Current ui' = Some (s (New endpoint key w h st))) /\
    s ui' = s (New endpoint key w h st) /\
    steady ui'.
Proof.
  intros Hne.
  destruct (New_steady endpoint key w h st) as (Hst & Hco).
  destruct (polls_ran idle_constructs printing_constructs ios _ Hst)
    as (ui' & E & R).
  pose proof (polls_coherent idle_constructs printing_constructs
                ios _ ui' Hst Hco E) as (H1 & H2).
  exists ui'. split; [exact E|]. split; [|split; [|split]].
  - apply H1. rewrite (r_UIState _ _ _ R). now apply lastMode_nonempty.
  - intros Hs. rewrite <- (r_s _ _ _ R). now apply H2.
  - apply (r_s _ _ _ R).
  - apply (r_steady _ _ _ R).
Qed.

End FurtherClaims.


Lemma uiSplash_steady : steady uiSplash.
Proof.
  split; [exists (mkPanelObj 1%positive None); split|
          exists (mkPanelObj 1%positive None)]; vm_compute; reflexivity.
Qed.


Lemma polls_attach_per_change_witness :
  exists ui' es,
    polls (D:=demo) [pollOk "Operational" 0; pollOk "Operational" 5;
                     pollOk "Printing" 10] uiSplash = Ok tt ui' /\
    trace ui' = trace uiSplash ++ es /\
    length (filter attaches es) = 2 /\
    length (filter watchdog es) = 3.
Proof.
  apply (polls_attach_per_change (D:=demo) (allocPanel_constructs None)
           (allocPanel_constructs None)
           [pollOk "Operational" 0; pollOk "Operational" 5;
            pollOk "Printing" 10] uiSplash).
  exact uiSplash_steady.
Defined.

Lemma polls_connect_per_error_poll_witness :
  exists ui' es,
    polls (D:=demo) [pollErrorState; pollOk "Operational" 5; pollErrorState;
                     pollRefused] uiSplash = Ok tt ui' /\
    trace ui' = trace uiSplash ++ es /\
    length (filter connects es) = 3.
Proof.
  apply (polls_connect_per_error_poll (D:=demo) (allocPanel_constructs None)
           (allocPanel_constructs None)
           [pollErrorState; pollOk "Operational" 5; pollErrorState;
            pollRefused] uiSplash).
  exact uiSplash_steady.
Defined.

Lemma polls_after_New_witness :
  exists ui',
    polls (D:=demo) [pollAt30; pollOk "Operational" 5]
          (New "http://host:80" "secret" 0 0 boot) = Ok tt ui' /\
    is_Some (Current ui') /\
    (UIState ui' = "splash" ->
     Current ui' = Some (s (New "http://host:80" "secret" 0 0 boot))) /\
    s ui' = s (New "http://host:80" "secret" 0 0 boot) /\
    steady ui'.
Proof.
  apply (polls_after_New (D:=demo) (allocPanel_constructs None)
           (allocPanel_constructs None)).
  discriminate.
Defined.

(** ** Further properties: the splash label and the recorded state *)

Section FurtherLabelClaims.
Context `{D : Deps}.
Hypothesis idle_constructs : constructs IdleStatusPanel.
Hypothesis printing_constructs : constructs PrintStatusPanel.

Lemma labelAfter_failed (io : Poll) (ui : UI) (l : string) :
  failed io = true ->
  labelAfter io ui l =
  if late (t ui) io then errToUser (failure io) ui else l.
Proof.
  unfold failed, failure, labelAfter.
  destruct (query io); [discriminate|reflexivity].
Qed.

Lemma targetMode_failed (io : Poll) :
  failed io = true -> targetMode io = "splash".
Proof.
  unfold failed, targetMode. destruct (query io); [discriminate|reflexivity].
Qed.

Lemma stateAfter_failed (ios : list Poll) (st0 : ConnectionState) :
  Forall (fun io => failed io = true) ios ->
  fold_left (fun st io => stateAfter io st) ios st0 = st0.
Proof.
  intros H. revert st0. induction H as [|io rest Hio _ IH]; intros st0.
  - reflexivity.
  - cbn. rewrite IH. unfold stateAfter, failed in *.
    destruct (query io); [discriminate|reflexivity].
Qed.

Lemma labelAfter_early_run (ios : list Poll) (ui : UI) (l : string) :
  Forall (fun io => failed io = true /\ late (t ui) io = false) ios ->
  fold_left (fun l io => labelAfter io ui l) ios l = l.
Proof.
  intros Hall. revert l. induction Hall as [|io rest [Hf Hl] _ IH]; intros l.
  - reflexivity.
  - cbn. rewrite IH. now rewrite labelAfter_failed, Hl.
Qed.

(** The events of [Add]: no liveness signal and no connect command. *)
Lemma Add_sends_nothing (p : Panel) (ui : UI) :
  exists es, trace (final (Add p ui)) = trace ui ++ es /\
             filter connects es = [] /\ filter watchdog es = [].
Proof.
  run. destruct (Current ui) as [q|] eqn:Hc.
  - destruct (heap ui !! q) as [oq|] eqn:Hq; run.
    + rewrite Hq; run. rewrite Hq; run.
      destruct p as [r|]; run.
      * destruct (heap ui !! r) as [orr|] eqn:Hr; run.
        -- rewrite Hr; run. eexists. rewrite <- !app_assoc.
           split; [reflexivity|]. split; reflexivity.
        -- eexists. rewrite <- !app_assoc.
           split; [reflexivity|]. split; reflexivity.
      * eexists. rewrite <- !app_assoc.
        split; [reflexivity|]. split; reflexivity.
    + exists []. rewrite app_nil_r. auto.
  - destruct p as [r|]; run.
    + destruct (heap ui !! r) as [orr|] eqn:Hr; run.
      * rewrite Hr; run. eexists. rewrite <- !app_assoc.
        split; [reflexivity|]. split; reflexivity.
      * exists []. rewrite app_nil_r. auto.
    + exists []. rewrite app_nil_r. auto.
Qed.

(** The installer on target mode splash, with what it sends. *)
Lemma install_splash_sends (ui : UI) :
  exists u3 es,
    frames ui u3 /\
    final (defer (modify (set_UIState "splash")) (install "splash") ui)
    = set_UIState "splash" u3 /\
    trace u3 = trace ui ++ es /\
    filter connects es = [] /\ filter watchdog es = [].
Proof.
  unfold defer, install, bind, read, modify.
  destruct (String.eqb "splash" (UIState ui)).
  - exists ui, []. rewrite app_nil_r.
    split; [apply frames_refl|]. auto.
  - cbn [String.eqb Ascii.eqb Bool.eqb]. cbv beta iota.
    destruct (Add_sends_nothing (Some (s ui)) ui) as (es & T & C & W).
    exists (final (Add (Some (s ui)) ui)), es.
    split; [apply Add_frames|]. split; [|auto].
    destruct (Add (Some (s ui)) ui); reflexivity.
Qed.

(** X12: failures after the mercy period are never held back.  From a
    steady state and with constructors that return a panel (see
    [constructs]), whatever polls came before, when the last poll of a run
    is a failed query later than 30 seconds after construction, the run
    returns normally, the splash label is the formatted error of that last
    poll and the recorded mode is splash. *)
Theorem label_after_late_failure (pre : list Poll) (io : Poll) (ui : UI) :
  steady ui ->
  failed io = true ->
  late (t ui) io = true ->
  exists ui',
    polls (pre ++ [io]) ui = Ok tt ui' /\
    Label ui' = errToUser (failure io) ui /\
    UIState ui' = "splash".
Proof.
  intros Hst Hf Hl.
  destruct (polls_ran idle_constructs printing_constructs (pre ++ [io]) ui Hst)
    as (ui' & E & R).
  exists ui'. split; [exact E|]. split.
  - rewrite (r_Label _ _ _ R), fold_left_app. cbn.
    now rewrite labelAfter_failed, Hl.
  - rewrite (r_UIState _ _ _ R). unfold lastMode. rewrite fold_left_app. cbn.
    now apply targetMode_failed.
Qed.

(** X13: the mercy period protects the label for as long as it lasts.  Over
    any run of failed queries that all fall within 30 seconds of
    construction, the splash label stays what it was, in whatever state the
    run starts and whether it returns or panics. *)
Theorem label_kept_within_mercy (ios : list Poll) (ui : UI) :
  Forall (fun io => failed io = true /\ late (t ui) io = false) ios ->
  Label (final (polls ios ui)) = Label ui.
Proof.
  revert ui. induction ios as [|io rest IH]; intros ui Hall.
  - reflexivity.
  - inversion Hall as [|? ? [Hf Hl] Hrest]; subst.
    assert (Hq : query io = inr (failure io)).
    { unfold failed, failure in *. destruct (query io); [discriminate|].
      reflexivity. }
    destruct (mercy_window_poll io (failure io) ui Hq)
      as (H1 & _ & _ & Ht & _).
    assert (Hd : (Since (now io) (t ui) <= 30 * Second)%Z).
    { unfold late, errMercyPeriod in Hl.
      destruct (Z.gtb_spec (Since (now io) (t ui)) (Second * 30));
        [discriminate|lia]. }
    specialize (H1 Hd). cbn [polls]. unfold bind.
    destruct (verifyConnection io ui) as [[] u1|u1]; cbn in H1, Ht.
    + rewrite IH; [exact H1|]. now rewrite Ht.
    + exact H1.
Qed.

(** X14: [ui.State] holds the state of the last successful query.  From a
    steady state and with constructors that return a panel and leave the
    fields of the [UI] alone (see [constructs]), a run of polls returns
    normally; a failed query does not touch [ui.State], so after the run it
    is the state returned by the last query that succeeded, and the state it
    held before the run if none did. *)
Theorem State_after_polls (ios : list Poll) (ui : UI) :
  steady ui ->
  exists ui',
    polls ios ui = Ok tt ui' /\
    (Forall (fun io => failed io = true) ios -> State ui' = State ui) /\
    (forall pre io post st,
       ios = pre ++ io :: post ->
       query io = inl st ->
       Forall (fun io' => failed io' = true) post ->
       State ui' = st).
Proof.
  intros Hst.
  destruct (polls_ran idle_constructs printing_constructs ios ui Hst)
    as (ui' & E & R).
  exists ui'. split; [exact E|]. split.
  - intros Hall. rewrite (r_State _ _ _ R). now apply stateAfter_failed.
  - intros pre io post st -> Hq Hall.
    rewrite (r_State _ _ _ R), fold_left_app. cbn.
    rewrite stateAfter_failed by exact Hall.
    unfold stateAfter. now rewrite Hq.
Qed.

(** X15: a connect command that succeeds changes nothing on the screen text.
    When the query succeeds, classification reaches the error or offline
    case and the connect command returns no error, the splash label is left
    as it was, the state is recorded, and the target mode of this poll is
    splash all the same. *)
Theorem connect_success_keeps_label
    (io : Poll) (st : ConnectionState) (ui : UI) :
  query io = inl st ->
  needsConnect io = true ->
  connect io = None ->
  let ui' := final (verifyConnection io ui) in
  Label ui' = Label ui /\
  UIState ui' = "splash" /\
  State ui' = st /\
  exists es, trace ui' = trace ui ++ es /\
             filter connects es = [EvConnectRequest].
Proof.
  intros Hq Hn Hc ui'.
  assert (Hm : targetMode io = "splash").
  { unfold needsConnect, targetMode in *. rewrite Hq in *.
    destruct (IsOperational st); [discriminate|].
    destruct (IsPrinting st); [discriminate|reflexivity]. }
  destruct (sdNotify_effect (notifyErr io) ui)
    as (u1 & e1 & E1 & F1 & _ & _ & T1 & _ & C1 & _).
  destruct (classify_effect io u1) as (u2 & E2 & K).
  rewrite Hm in E2.
  destruct (install_splash_sends u2) as (u3 & e3 & F3 & E3 & T3 & C3 & _).
  assert (Hfin : ui' = set_UIState "splash" u3).
  { unfold ui', verifyConnection, bind. rewrite E1, E2. exact E3. }
  destruct (c_trace _ _ _ K) as (e2 & T2 & _ & C2 & _).
  rewrite Hn in C2.
  split; [|split; [|split]].
  - rewrite Hfin. cbn. rewrite (fr_Label _ _ F3), (c_Label _ _ _ K).
    unfold labelAfter, needsConnect in *. rewrite Hq in *.
    destruct (IsOperational st); [discriminate|].
    destruct (IsPrinting st); [discriminate|].
    cbn in Hn. rewrite Hn, Hc. apply (fr_Label _ _ F1).
  - rewrite Hfin. reflexivity.
  - rewrite Hfin. cbn. rewrite (fr_State _ _ F3), (c_State _ _ _ K).
    unfold stateAfter. now rewrite Hq.
  - exists (e1 ++ e2 ++ e3). split.
    + rewrite Hfin. cbn. rewrite T3, T2, T1, <- !app_assoc. reflexivity.
    + rewrite !filter_app, C1, C2, C3. reflexivity.
Qed.

End FurtherLabelClaims.

Lemma label_after_late_failure_witness :
  exists ui',
    polls (D:=demo) ([pollOk "Operational" 0; pollAt30] ++ [pollAt31]) uiSplash
      = Ok tt ui' /\
    Label ui' = errToUser (D:=demo) (failure pollAt31) uiSplash /\
    UIState ui' = "splash".
Proof.
  apply (label_after_late_failure (D:=demo) (allocPanel_constructs None)
           (allocPanel_constructs None)).
  - exact uiSplash_steady.
  - reflexivity.
  - reflexivity.
Defined.

Lemma label_kept_within_mercy_witness :
  Label (final (polls (D:=demo)
                  [pollAt30; pollErr "dial tcp: connection refused" 5] ui0))
  = Label ui0.
Proof.
  apply (label_kept_within_mercy (D:=demo)).
  repeat (constructor; [split; reflexivity|]). constructor.
Defined.

Lemma State_after_polls_witness :
  exists ui',
    polls (D:=demo) [pollOk "Printing" 0; pollAt31] uiSplash = Ok tt ui' /\
    (Forall (fun io => failed io = true) [pollOk "Printing" 0; pollAt31] ->
     State ui' = State uiSplash) /\
    (forall pre io post st,
       [pollOk "Printing" 0; pollAt31] = pre ++ io :: post ->
       query io = inl st ->
       Forall (fun io' => failed io' = true) post ->
       State ui' = st).
Proof.
  apply (State_after_polls (D:=demo) (allocPanel_constructs None)
           (allocPanel_constructs None)).
  exact uiSplash_steady.
Defined.

Lemma connect_success_keeps_label_witness :
  Label (final (verifyConnection (D:=demo) pollErrorState uiIdle))
  = Label uiIdle /\
  UIState (final (verifyConnection (D:=demo) pollErrorState uiIdle))
  = "splash" /\
  State (final (verifyConnection (D:=demo) pollErrorState uiIdle)) = "Error" /\
  exists es,
    trace (final (verifyConnection (D:=demo) pollErrorState uiIdle))
    = trace uiIdle ++ es /\
    filter connects es = [EvConnectRequest].
Proof.
  apply (connect_success_keeps_label (D:=demo) pollErrorState "Error" uiIdle);
    reflexivity.
Defined.

(** ** Further properties: the liveness signal does not steer the poll *)

Lemma blind_ret {A} (a : A) : blind (ret a).
Proof. intros u u' H. cbn. auto. Qed.

Lemma blind_panic {A} : blind (@panic A).
Proof. intros u u' H. exact H. Qed.

Lemma blind_bind {A B} (m : M A) (k : A -> M B) :
  blind m -> (forall a, blind (k a)) -> blind (bind m k).
Proof.
  intros Hm Hk u u' H. unfold bind. specialize (Hm u u' H).
  destruct (m u) as [a v|v], (m u') as [a' v'|v']; cbn in Hm;
    try contradiction; [|exact Hm].
  destruct Hm as [<- Hv]. now apply Hk.
Qed.

Lemma blind_read {A} (f : UI -> A) :
  (forall u, f u = f (erase u)) -> blind (read f).
Proof.
  intros Hf u u' H. cbn. split; [|exact H]. now rewrite (Hf u), (Hf u'), H.
Qed.

Lemma blind_modify (f : UI -> UI) :
  (forall u, erase (f u) = erase (f (erase u))) -> blind (modify f).
Proof.
  intros Hf u u' H. cbn. split; [reflexivity|].
  now rewrite (Hf u), (Hf u'), H.
Qed.

Lemma blind_emit (e : Event) : blind (emit e).
Proof. intros u u' H. cbn. split; [reflexivity|exact H]. Qed.

Lemma blind_defer {A} (d : M unit) (body : M A) :
  blind d -> blind body -> blind (defer d body).
Proof.
  intros Hd Hb u u' H. unfold defer. specialize (Hb u u' H).
  destruct (body u) as [a v|v], (body u') as [a' v'|v']; cbn in Hb;
    try contradiction.
  - destruct Hb as [<- Hv]. specialize (Hd v v' Hv).
    destruct (d v), (d v'); cbn in *; try contradiction; tauto.
  - specialize (Hd v v' Hb).
    destruct (d v), (d v'); cbn in *; try contradiction; tauto.
Qed.

Lemma blind_deref (p : Panel) : blind (deref p).
Proof.
  intros u u' H. unfold deref. destruct p as [r|]; [|exact H].
  assert (Hh : heap u = heap u') by exact (f_equal heap H).
  rewrite Hh. destruct (heap u' !! r); cbn; auto.
Qed.

Ltac blind_step :=
  first [ apply blind_ret | apply blind_panic | apply blind_emit
        | apply blind_deref
        | apply blind_read; intros ?; reflexivity
        | apply blind_modify; intros ?; reflexivity
        | apply blind_bind; [|intros ?]
        | apply blind_defer ].

Lemma blind_Remove (p : Panel) : blind (Remove p).
Proof.
  unfold Remove, Hide, Grid, grid_Remove. repeat blind_step.
Qed.

Lemma blind_Add (p : Panel) : blind (Add p).
Proof.
  unfold Add, Show, Grid, grid_Attach, grid_ShowAll.
  blind_step; [blind_step|].
  blind_step;
    [match goal with
     | |- blind (if ?c is Some _ then _ else _) =>
         destruct c; [apply blind_Remove|blind_step]
     end|].
  repeat blind_step.
Qed.

Lemma allocPanel_blind (parent : Panel) : blind (allocPanel parent).
Proof. unfold allocPanel. repeat blind_step. Qed.

Section FurtherSignalClaims.
Context `{D : Deps}.
Hypothesis idle_blind : blind IdleStatusPanel.
Hypothesis printing_blind : blind PrintStatusPanel.

Lemma blind_classify (io : Poll) : blind (classify io).
Proof.
  unfold classify, reconnect, SetText.
  blind_step; [blind_step|].
  destruct (query io) as [st|err].
  - blind_step; [blind_step|].
    destruct (IsOperational st); [blind_step|].
    destruct (IsPrinting st); [blind_step|].
    destruct (IsError st); [destruct (connect io); repeat blind_step|].
    destruct (IsOffline st); [destruct (connect io); repeat blind_step|].
    destruct (IsConnecting st); repeat blind_step.
  - blind_step.
    + blind_step; [blind_step|].
      match goal with
      | |- context [(Since (now io) ?x >? errMercyPeriod)%Z] =>
          destruct (Since (now io) x >? errMercyPeriod)%Z
      end; repeat blind_step.
    + repeat blind_step.
Qed.

Lemma blind_install (m : string) : blind (install m).
Proof.
  unfold install. blind_step; [blind_step|].
  match goal with
  | |- context [String.eqb m ?x] => destruct (String.eqb m x)
  end; [blind_step|].
  destruct (String.eqb m "idle").
  { blind_step; [blind_step|]. blind_step; [exact idle_blind|].
    apply blind_Add. }
  destruct (String.eqb m "printing").
  { blind_step; [blind_step|]. blind_step; [exact printing_blind|].
    apply blind_Add. }
  destruct (String.eqb m "splash"); [|blind_step].
  blind_step; [blind_step|]. apply blind_Add.
Qed.

(** X16: a failed liveness notification is logged and nothing else.  With
    constructors that do not read the trace, a poll whose notification
    failed ends the same way (return or panic) and in the same state, the
    trace apart, as the same poll with any other notification result. *)
Theorem notify_failure_only_logs (io : Poll) (res : option error) (ui : UI) :
  agree (verifyConnection (with_notifyErr res io) ui) (verifyConnection io ui).
Proof.
  unfold verifyConnection.
  change (classify (with_notifyErr res io)) with (classify io).
  set (rest := let* newUiState := classify io in
               defer (modify (set_UIState newUiState)) (install newUiState)).
  assert (Hrest : blind rest).
  { unfold rest. blind_step; [apply blind_classify|].
    blind_step; [|apply blind_install]. blind_step. }
  unfold bind.
  destruct (sdNotify_effect (notifyErr (with_notifyErr res io)) ui)
    as (u1 & e1 & E1 & _). rewrite E1.
  destruct (sdNotify_effect (notifyErr io) ui)
    as (u1' & e1' & E1' & _). rewrite E1'.
  apply Hrest.
  assert (H1 : erase u1 = erase ui).
  { revert E1. unfold sdNotify, bind, emit, modify, ret.
    destruct (notifyErr (with_notifyErr res io)); intros [= <-]; reflexivity. }
  assert (H1' : erase u1' = erase ui).
  { revert E1'. unfold sdNotify, bind, emit, modify, ret.
    destruct (notifyErr io); intros [= <-]; reflexivity. }
  now rewrite H1, H1'.
Qed.

End FurtherSignalClaims.

Lemma notify_failure_only_logs_witness :
  agree (verifyConnection (D:=demo)
           (with_notifyErr (Some (mkError "no socket")) (pollOk "Operational" 0))
           uiSplash)
        (verifyConnection (D:=demo) (pollOk "Operational" 0) uiSplash).
Proof.
  apply (notify_failure_only_logs (D:=demo) (allocPanel_blind None)
           (allocPanel_blind None)).
Defined.
